(** * Article extractor (app.py): extraction pipeline, batch loop and export

    A shallow embedding of [extract_article], of the batch loop of the
    "Batch Download" tab and of [create_excel_download], with the Python
    built-ins and the BeautifulSoup / pandas operations they call.

    - A Python [str] is a sequence of Unicode code points: [list N].
    - A Python [dict] literal is an association list in insertion order
      (pandas derives the column order from it).
    - Effects (the HTTP request, the clock, [time.sleep]) are threaded
      through a small state-and-exception monad; what the outside world
      answers is given by oracles: [server] for the network together
      with the HTML parser, [clock] and [stamp] for the time,
      [libraries] for what pandas and openpyxl decide.
    - The Streamlit calls (spinner, progress bar, messages) only show
      things and are left out. *)

From Stdlib Require Import Ascii String.
From Stdlib Require Import List NArith ZArith Bool Arith Lia.
Import ListNotations.

Set Implicit Arguments.

(** ** Python strings *)

Module PyStr.

Definition char := N.
Definition str := list char.

(** An ASCII literal of the source, as a sequence of code points. *)
Definition py (s : string) : str := map N_of_ascii (list_ascii_of_string s).
Arguments py s%_string.

Definition str_eqb (a b : str) : bool :=
  if list_eq_dec N.eq_dec a b then true else false.

Definition LF : char := 10%N.
Definition CR : char := 13%N.
Definition slash : char := 47%N.

(** [str.isspace] on one code point: the characters [str.strip()] and
    [str.split()] treat as whitespace. *)
Definition isspace (c : char) : bool :=
  ((9 <=? c) && (c <=? 13) || (28 <=? c) && (c <=? 32)
   || (c =? 133) || (c =? 160) || (c =? 5760)
   || (8192 <=? c) && (c <=? 8202)
   || (c =? 8232) || (c =? 8233) || (c =? 8239) || (c =? 8287)
   || (c =? 12288))%N.

(** The line boundaries of [str.splitlines]. *)
Definition is_linebreak (c : char) : bool :=
  ((10 <=? c) && (c <=? 13) || (28 <=? c) && (c <=? 30)
   || (c =? 133) || (c =? 8232) || (c =? 8233))%N.

Fixpoint lstrip (s : str) : str :=
  match s with
  | c :: s' => if isspace c then lstrip s' else s
  | [] => []
  end.

Definition rstrip (s : str) : str := rev (lstrip (rev s)).

(** [s.strip()] *)
Definition strip (s : str) : str := rstrip (lstrip s).

(** [s.splitlines()]: a line ends at a line boundary, "\r\n" counts as
    one boundary, and a last line without a boundary is kept when it is
    not empty. *)
Fixpoint splitlines (s : str) : list str :=
  match s with
  | [] => []
  | c :: rest =>
      if is_linebreak c then
        [] :: match rest with
              | c' :: rest' =>
                  if (c =? CR)%N && (c' =? LF)%N then splitlines rest'
                  else splitlines rest
              | [] => splitlines rest
              end
      else
        match splitlines rest with
        | l :: ls => (c :: l) :: ls
        | [] => [[c]]
        end
  end.

(** [s.split(sep)] for a one-character separator. *)
Fixpoint split_on (sep : char) (s : str) : list str :=
  match s with
  | [] => [[]]
  | c :: rest =>
      if (c =? sep)%N then [] :: split_on sep rest
      else
        match split_on sep rest with
        | l :: ls => (c :: l) :: ls
        | [] => [[c]]
        end
  end.

(** [s.split()]: the maximal runs of non-whitespace characters. *)
Fixpoint split_ws (s : str) : list str :=
  match s with
  | [] => []
  | c :: rest =>
      if isspace c then split_ws rest
      else
        match rest with
        | [] => [[c]]
        | c' :: _ =>
            if isspace c' then [c] :: split_ws rest
            else
              match split_ws rest with
              | l :: ls => (c :: l) :: ls
              | [] => [[c]]
              end
        end
  end.

(** [sep.join(parts)] *)
Fixpoint join (sep : str) (parts : list str) : str :=
  match parts with
  | [] => []
  | [p] => p
  | p :: ps => p ++ sep ++ join sep ps
  end.

(** [s.startswith(prefix)] *)
Fixpoint startswith (s prefix : str) : bool :=
  match prefix, s with
  | [], _ => true
  | p :: prefix', c :: s' => (c =? p)%N && startswith s' prefix'
  | _ :: _, [] => false
  end.

(** [s.startswith((p1, p2, ...))] *)
Definition startswith_any (s : str) (prefixes : list str) : bool :=
  existsb (startswith s) prefixes.

(** Truth value of a string in a condition. *)
Definition truthy (s : str) : bool :=
  match s with [] => false | _ :: _ => true end.

End PyStr.
Export PyStr.

(** ** Text clean-up and domain of [extract_article] *)

(** Lines 77-78:
    [lines = [line.strip() for line in text.splitlines() if line.strip()]]
    [clean_text = '\n'.join(lines)] *)
Definition clean_lines (text : str) : list str :=
  map strip (filter (fun line => truthy (strip line)) (splitlines text)).

Definition normalize (text : str) : str := join [LF] (clean_lines text).

(** Line 81:
    [domain = url.split('/')[2] if len(url.split('/')) > 2 else 'unknown'] *)
Definition domain_of (url : str) : str :=
  if (2 <? length (split_on slash url))%nat
  then nth 2 (split_on slash url) []
  else py "unknown".

(** ** The parsed document (BeautifulSoup with html.parser) *)

Module Soup.

(** A page element: a text node; a string that [get_text] does not take
    as text (comment, doctype, declaration and the like); or a tag with
    the values of its [class] attribute and its children. *)
#[local] Unset Elimination Schemes.
Inductive node : Type :=
| NavigableString (s : str)
| Comment (s : str)
| Tag (name : str) (classes : list str) (contents : list node).
#[local] Set Elimination Schemes.

(** The BeautifulSoup object: the top-level elements of the document. *)
Definition soup := list node.

Definition contents_of (n : node) : list node :=
  match n with
  | Tag _ _ ch => ch
  | _ => []
  end.

(** [tag.descendants] with the element itself in front: document order. *)
Fixpoint self_and_descendants (n : node) : list node :=
  n :: match n with
       | Tag _ _ ch => flat_map self_and_descendants ch
       | _ => []
       end.

Definition descendants (doc : soup) : list node :=
  flat_map self_and_descendants doc.

(** [find(...)]: the first tag, in document order, that matches. *)
Fixpoint find_node (p : node -> bool) (n : node) : option node :=
  if p n then Some n
  else
    match n with
    | Tag _ _ ch =>
        (fix find_first (l : list node) : option node :=
           match l with
           | [] => None
           | c :: l' =>
               match find_node p c with
               | Some t => Some t
               | None => find_first l'
               end
           end) ch
    | _ => None
    end.

Fixpoint find (p : node -> bool) (doc : soup) : option node :=
  match doc with
  | [] => None
  | c :: doc' =>
      match find_node p c with
      | Some t => Some t
      | None => find p doc'
      end
  end.

(** The matchers of [find('name')] and [find('name', class_='c')]. *)
Definition named (nm : str) (n : node) : bool :=
  match n with
  | Tag nm' _ _ => str_eqb nm' nm
  | _ => false
  end.

Definition has_class (c : str) (n : node) : bool :=
  match n with
  | Tag _ cls _ => existsb (str_eqb c) cls
  | _ => false
  end.

Definition named_with_class (nm c : str) (n : node) : bool :=
  named nm n && has_class c n.

(** [for element in soup(names): element.decompose()]: every tag whose
    name is listed leaves the tree, with all it contains. *)
Fixpoint decompose (names : list str) (n : node) : list node :=
  match n with
  | Tag nm cls ch =>
      if existsb (str_eqb nm) names then []
      else [Tag nm cls (flat_map (decompose names) ch)]
  | _ => [n]
  end.

Definition decompose_all (names : list str) (doc : soup) : soup :=
  flat_map (decompose names) doc.

(** The text nodes at or below an element, in document order; comments
    and the like are not text. *)
Fixpoint strings_of (n : node) : list str :=
  match n with
  | NavigableString s => [s]
  | Comment _ => []
  | Tag _ _ ch => flat_map strings_of ch
  end.

(** [get_text(separator=sep, strip=True)] over a list of elements: each
    text node stripped, the empty ones skipped, joined by [sep]. *)
Definition text_of (sep : str) (l : list node) : str :=
  join sep (filter truthy (map strip (flat_map strings_of l))).

Definition get_text (sep : str) (n : node) : str :=
  text_of sep (contents_of n).

(** [tag.string]: the single string child, looked for through single
    tag children; [None] when an element has no child or several. *)
Fixpoint string_of (n : node) : option str :=
  match n with
  | NavigableString s => Some s
  | Comment s => Some s
  | Tag _ _ [c] => string_of c
  | Tag _ _ _ => None
  end.

(** [a or b] on the results of [find]: a tag is always true. *)
Definition py_or (a b : option node) : option node :=
  match a with
  | Some t => Some t
  | None => b
  end.

End Soup.
Export Soup.

(** ** Values, records and exceptions *)

Inductive value : Type :=
| VStr (s : str)
| VInt (z : Z)
| VNone.

(** A dict with string keys, in insertion order. *)
Definition dict := list (str * value).

Fixpoint dict_get (d : dict) (k : str) : option value :=
  match d with
  | [] => None
  | (k', v) :: d' => if str_eqb k' k then Some v else dict_get d' k
  end.

Definition keys (d : dict) : list str := map fst d.

(** An exception object: its class name and [str(e)]. Every exception
    of the model is an instance of [Exception]. *)
Record exn : Type := Exception { exn_class : str; exn_str : str }.

(** The field names of an article record, in the order of the dict
    literals of [extract_article]. *)
Definition article_fields : list str :=
  [py "title"; py "url"; py "domain"; py "text"; py "word_count";
   py "date_extracted"; py "status"].

(** ** The outside world *)

(** What [BeautifulSoup(content, 'html.parser')] makes of a content: a
    tree, or an exception when the parser rejects the markup. *)
Inductive parse_outcome : Type :=
| ParserRaises (e : exn)
| Parsed (doc : soup).

(** What [requests.get(url, headers=..., timeout=15)] comes back with:
    it raises, or it returns a response whose [raise_for_status()] may
    raise and whose content the parser is given. *)
Record response : Type := Response {
  status_error : option exn;
  content : parse_outcome
}.

Inductive get_outcome : Type :=
| GetRaises (e : exn)
| GetReturns (r : response).

(** The effects the program has had so far: the URLs requested (oldest
    first), the number of clock readings and the number of
    [time.sleep(0.5)] pauses. *)
Record world : Type := World {
  requested : list str;
  clock_reads : nat;
  sleeps : nat
}.

Definition initial_world : world := World [] 0 0.

(** ** A monad for state and exceptions *)

Inductive result (A : Type) : Type :=
| Ret (a : A)
| Raise (e : exn).
Arguments Ret {A} a.
Arguments Raise {A} e.

Definition M (A : Type) : Type := world -> result A * world.

Definition ret {A} (a : A) : M A := fun w => (Ret a, w).

Definition raise {A} (e : exn) : M A := fun w => (Raise e, w).

Definition bind {A B} (m : M A) (k : A -> M B) : M B :=
  fun w =>
    match m w with
    | (Ret a, w') => k a w'
    | (Raise e, w') => (Raise e, w')
    end.

(** [try: body  except Exception as e: handler(e)] *)
Definition try_except {A} (body : M A) (handler : exn -> M A) : M A :=
  fun w =>
    match body w with
    | (Ret a, w') => (Ret a, w')
    | (Raise e, w') => handler e w'
    end.

Declare Scope py_scope.
Delimit Scope py_scope with py_m.
Notation "x <- m ;; k" := (bind m (fun x => k))
  (at level 61, m at next level, right associativity) : py_scope.
Notation "m ;;; k" := (bind m (fun _ => k))
  (at level 61, right associativity) : py_scope.
Open Scope py_scope.

(** [d[k]]: [KeyError] when the key is missing. *)
Definition getitem (d : dict) (k : str) : M value :=
  match dict_get d k with
  | Some v => ret v
  | None => raise (Exception (py "KeyError") (py "'" ++ k ++ py "'"))
  end.

(** [v[:n]]: a slice of a string; [None] and numbers cannot be sliced. *)
Definition slice_to (n : nat) (v : value) : M str :=
  match v with
  | VStr s => ret (firstn n s)
  | VInt _ =>
      raise (Exception (py "TypeError") (py "'int' object is not subscriptable"))
  | VNone =>
      raise (Exception (py "TypeError")
               (py "'NoneType' object is not subscriptable"))
  end.

(** [time.sleep(0.5)] *)
Definition sleep : M unit :=
  fun w => (Ret tt, World (requested w) (clock_reads w) (S (sleeps w))).

(** ** The program *)

Section Program.

(** The answer to a request, given the URLs requested before it and the
    URL asked for. *)
Variable server : list str -> str -> get_outcome.

(** [datetime.now().strftime("%Y-%m-%d %H:%M:%S")] at the n-th reading
    of the clock. *)
Variable clock : nat -> str.

(** [requests.get(url, headers=headers, timeout=15)]: one request. *)
Definition requests_get (url : str) : M response :=
  fun w =>
    let w' := World (requested w ++ [url]) (clock_reads w) (sleeps w) in
    match server (requested w) url with
    | GetRaises e => (Raise e, w')
    | GetReturns r => (Ret r, w')
    end.

(** [response.raise_for_status()] *)
Definition raise_for_status (r : response) : M unit :=
  match status_error r with
  | Some e => raise e
  | None => ret tt
  end.

(** Line 54: [BeautifulSoup(response.content, 'html.parser')] *)
Definition BeautifulSoup (r : response) : M soup :=
  match content r with
  | ParserRaises e => raise e
  | Parsed doc => ret doc
  end.

(** [datetime.now().strftime("%Y-%m-%d %H:%M:%S")] *)
Definition now_strftime : M str :=
  fun w =>
    (Ret (clock (clock_reads w)),
     World (requested w) (S (clock_reads w)) (sleeps w)).

(** Line 57: the element kinds removed before extraction. *)
Definition unwanted : list str :=
  [py "script"; py "style"; py "nav"; py "footer"; py "header"; py "aside";
   py "advertisement"].

(** Lines 61-65: the title. *)
Definition extract_title (doc : soup) : value :=
  match find (named (py "title")) doc with
  | Some t =>
      match string_of t with
      | Some s => VStr s
      | None => VNone
      end
  | None =>
      match find (named (py "h1")) doc with
      | Some h => VStr (get_text [] h)
      | None => VStr (py "No title found")
      end
  end.

(** Line 68: the content region. *)
Definition article_body (doc : soup) : option node :=
  py_or (find (named (py "article")) doc)
    (py_or (find (named (py "main")) doc)
       (py_or (find (named_with_class (py "div") (py "content")) doc)
          (find (named_with_class (py "div") (py "post")) doc))).

(** Lines 70-74: the text of the region, or of the whole document. *)
Definition extract_text (doc : soup) : str :=
  match article_body doc with
  | Some t => get_text [LF] t
  | None => text_of [LF] doc
  end.

(** Lines 43-102. The headers are part of the request the server
    answers. The handler catches every exception of the body: of the
    request, of the status check and of the parser. *)
Definition extract_article (url : str) : M dict :=
  try_except
    (response <- requests_get url ;;
     raise_for_status response ;;;
     soup <- BeautifulSoup response ;;
     let doc := decompose_all unwanted soup in
     let title := extract_title doc in
     let text := extract_text doc in
     let clean_text := normalize text in
     let domain := domain_of url in
     date_extracted <- now_strftime ;;
     ret [(py "title", title);
          (py "url", VStr url);
          (py "domain", VStr domain);
          (py "text", VStr clean_text);
          (py "word_count", VInt (Z.of_nat (length (split_ws clean_text))));
          (py "date_extracted", VStr date_extracted);
          (py "status", VStr (py "success"))])
    (fun e =>
       date_extracted <- now_strftime ;;
       ret [(py "title", VStr (py "Error"));
            (py "url", VStr url);
            (py "domain", VStr (py "error"));
            (py "text", VStr (exn_str e));
            (py "word_count", VInt 0);
            (py "date_extracted", VStr date_extracted);
            (py "status", VStr (py "failed: " ++ exn_str e))]).

(** *** Batch tab *)

Definition schemes : list str := [py "http://"; py "https://"].

(** Lines 213-218: the record appended for a URL without a scheme. *)
Definition invalid_url_record (url : str) : dict :=
  [(py "url", VStr url);
   (py "title", VStr (py "Invalid URL"));
   (py "status", VStr (py "failed: Missing http:// or https://"));
   (py "text", VStr [])].

(** Lines 209-224: the loop over [urls], appending to [results]; the
    pause follows each call of [extract_article]. *)
Fixpoint batch_loop (urls : list str) (results : list dict) : M (list dict) :=
  match urls with
  | [] => ret results
  | url :: urls' =>
      if negb (startswith_any url schemes) then
        batch_loop urls' (results ++ [invalid_url_record url])
      else
        result <- extract_article url ;;
        sleep ;;;
        batch_loop urls' (results ++ [result])
  end.

(** Line 198:
    [urls = [url.strip() for url in batch_urls.split('\n') if url.strip()]] *)
Definition parse_urls (batch_urls : str) : list str :=
  map strip (filter (fun url => truthy (strip url)) (split_on LF batch_urls)).

(** What pressing the button leads to, up to the end of the loop. *)
Inductive batch_outcome : Type :=
| WarnNoUrl
| WarnTooMany
| Results (results : list dict).

(** Lines 200-224: nothing is processed for an empty list or for more
    than 20 URLs. *)
Definition process_urls (urls : list str) : M batch_outcome :=
  match urls with
  | [] => ret WarnNoUrl
  | _ :: _ =>
      if (20 <? length urls)%nat then ret WarnTooMany
      else
        results <- batch_loop urls [] ;;
        ret (Results results)
  end.

(** Line 230: [len([r for r in results if r['status'] == 'success'])] *)
Fixpoint count_successful (results : list dict) : M nat :=
  match results with
  | [] => ret 0%nat
  | r :: rs =>
      status <- getitem r (py "status") ;;
      n <- count_successful rs ;;
      ret (match status with
           | VStr s => if str_eqb s (py "success") then S n else n
           | _ => n
           end)
  end.

(** Lines 240-243: one row of the results table. *)
Definition summary_row (r : dict) : M dict :=
  url <- getitem r (py "url") ;;
  url50 <- slice_to 50 url ;;
  title <- getitem r (py "title") ;;
  title40 <- slice_to 40 title ;;
  status <- getitem r (py "status") ;;
  words <- getitem r (py "word_count") ;;
  ret [(py "URL", VStr (url50 ++ py "..."));
       (py "Title", VStr title40);
       (py "Status", status);
       (py "Words", words)].

Fixpoint summary_rows (results : list dict) : M (list dict) :=
  match results with
  | [] => ret []
  | r :: rs =>
      row <- summary_row r ;;
      rows <- summary_rows rs ;;
      ret (row :: rows)
  end.

End Program.

(** ** The spreadsheet export *)

(** What pandas and openpyxl decide and the source does not show:
    - [astype_str]: [series.astype(str)] on the entries of one column
      ([None] is a missing entry); an entry of the result that is no
      string has no [len];
    - [as_float]: the number stored for an integer in a column that
      pandas holds as floats;
    - [also_refused]: the characters outside XML (from U+D800 on: the
      surrogates, U+FFFE, U+FFFF) that the XML writer in use refuses;
    - [export_error]: the exception that leaves [create_excel_download]
      when the export of the records fails. *)
Record libraries : Type := Libraries {
  astype_str : list (option value) -> list (option str);
  as_float : Z -> Z;
  also_refused : char -> bool;
  export_error : list dict -> exn
}.

(** [pd.DataFrame(records)]: the columns are the keys of the records in
    order of first appearance; an entry a record lacks is missing. *)
Record DataFrame : Type := Frame {
  columns : list str;
  entries : list (list (option value))
}.

Record worksheet : Type := Sheet {
  sheet_name : str;
  sheet_rows : list (list value);
  column_widths : list (str * nat)
}.

(** The workbook behind the returned bytes: its sheets. *)
Definition workbook := list worksheet.

Fixpoint enumerate_from {A} (i : nat) (l : list A) : list (nat * A) :=
  match l with
  | [] => []
  | a :: l' => (i, a) :: enumerate_from (S i) l'
  end.

(** All the values of a list of options, when none is missing. *)
Fixpoint all_some {A} (l : list (option A)) : option (list A) :=
  match l with
  | [] => Some []
  | None :: _ => None
  | Some a :: l' =>
      match all_some l' with
      | Some r => Some (a :: r)
      | None => None
      end
  end.

Section Exporter.

Variable libs : libraries.

Definition add_column (cols : list str) (k : str) : list str :=
  if existsb (str_eqb k) cols then cols else cols ++ [k].

Definition columns_of (records : list dict) : list str :=
  fold_left (fun cols r => fold_left add_column (keys r) cols) records [].

Definition make_frame (records : list dict) : DataFrame :=
  let cols := columns_of records in
  Frame cols (map (fun r => map (dict_get r) cols) records).

(** [df[col]] for the i-th column. *)
Definition column_entries (df : DataFrame) (i : nat) : list (option value) :=
  map (fun row => nth i row None) (entries df).

(** pandas refuses a frame of more than 2^20 rows or 2^14 columns. *)
Definition sheet_fits (df : DataFrame) : bool :=
  ((N.of_nat (length (entries df)) <=? 1048576)
   && (N.of_nat (length (columns df)) <=? 16384))%N.

(** openpyxl cuts a string at 32767 characters. *)
Definition cut (s : str) : str := firstn (N.to_nat 32767) s.

(** openpyxl's ILLEGAL_CHARACTERS_RE: the control characters other
    than tab, line feed and carriage return. *)
Definition illegal_character (c : char) : bool :=
  ((c <=? 8) || (c =? 11) || (c =? 12) || (14 <=? c) && (c <=? 31))%N.

(** A character that stops the export: one of openpyxl's list, or one
    from U+D800 on that the XML writer refuses. *)
Definition refused (c : char) : bool :=
  illegal_character c || (55296 <=? c)%N && also_refused libs c.

(** A column pandas holds as floats: integers and gaps, nothing else. *)
Definition numeric_with_gaps (col : list (option value)) : bool :=
  forallb (fun e => match e with Some (VStr _) => false | _ => true end) col
  && existsb (fun e => match e with Some (VInt _) => true | _ => false end) col
  && existsb (fun e => match e with
                       | None | Some VNone => true
                       | _ => false
                       end) col.

(** The value given to a cell: a string cut to size, a number, and the
    empty [na_rep] for a missing entry and for [None]. *)
Definition excel_cell (gaps : bool) (e : option value) : value :=
  match e with
  | Some (VStr s) => VStr (cut s)
  | Some (VInt z) => VInt (if gaps then as_float libs z else z)
  | Some VNone => VStr []
  | None => VStr []
  end.

(** A value openpyxl accepts for a cell. *)
Definition accepted (v : value) : bool :=
  match v with
  | VStr s => negb (existsb refused s)
  | _ => true
  end.

Definition excel_row (df : DataFrame) (row : list (option value)) : list value :=
  map (fun ie => excel_cell (numeric_with_gaps (column_entries df (fst ie)))
                   (snd ie))
      (enumerate_from 0 row).

(** [df.to_excel(writer, index=False, sheet_name=name)]: the header row
    and one row per record; nothing when the frame is too large or a
    cell is refused. *)
Definition to_excel (df : DataFrame) (name : str) : option worksheet :=
  let rows :=
    map (fun col => VStr (cut col)) (columns df)
    :: map (excel_row df) (entries df) in
  if sheet_fits df && forallb (forallb accepted) rows
  then Some (Sheet name rows [])
  else None.

(** Lines 117-119: the width of the i-th column, under the letter
    [chr(65 + i)]; nothing when an entry of the column has no [len]. *)
Definition column_width (df : DataFrame) (i : nat) (col : str)
  : option (str * nat) :=
  match all_some (astype_str libs (column_entries df i)) with
  | Some rendered =>
      let max_length :=
        (Nat.max (list_max (map (@length char) rendered)) (length col) + 2)%nat
      in Some ([N.of_nat (65 + i)], Nat.min max_length 50)
  | None => None
  end.

(** A column name the writer knows: one letter, in either case. *)
Definition column_letter (name : str) : bool :=
  match name with
  | [c] => ((65 <=? c) && (c <=? 90) || (97 <=? c) && (c <=? 122))%N
  | _ => false
  end.

(** Lines 104-121. [None]: an exception leaves the function, raised by
    [to_excel], by [len] at line 118 or by the writer when it meets a
    column name that is no letter. *)
Definition create_excel_download (data : dict + list dict)
    (filename_prefix : str) : option workbook :=
  let df :=
    match data with
    | inr records => make_frame records
    | inl record => make_frame [record]
    end in
  match to_excel df (py "Extracted Content") with
  | None => None
  | Some ws =>
      match all_some (map (fun ic => column_width df (fst ic) (snd ic))
                          (enumerate_from 0 (columns df))) with
      | None => None
      | Some widths =>
          if forallb (fun lw => column_letter (fst lw)) widths
          then Some [Sheet (sheet_name ws) (sheet_rows ws) widths]
          else None
      end
  end.

End Exporter.

(** ** The batch tab, from the button to the download *)

Section BatchTab.

Variable server : list str -> str -> get_outcome.
Variable clock : nat -> str.

(** [datetime.now().strftime('%Y%m%d_%H%M')] at the n-th reading of the
    clock. *)
Variable stamp : nat -> str.

Variable libs : libraries.

Inductive batch_page : Type :=
| PageWarnNoUrl
| PageWarnTooMany
| PageDone (results : list dict) (successful failed : nat)
    (summary : list dict) (excel_data : workbook) (file_name : str).

(** Line 247: the export of the batch, or its exception. *)
Definition export_batch (results : list dict) : M workbook :=
  match create_excel_download libs (inr results) (py "Batch_Articles") with
  | Some book => ret book
  | None => raise (export_error libs results)
  end.

(** Line 251:
    [f"Batch_Articles_{datetime.now().strftime('%Y%m%d_%H%M')}.xlsx"] *)
Definition batch_file_name : M str :=
  fun w =>
    (Ret (py "Batch_Articles_" ++ stamp (clock_reads w) ++ py ".xlsx"),
     World (requested w) (S (clock_reads w)) (sleeps w)).

(** Lines 197-254: the loop, the tally, the results table, the export
    and the name of the download. An exception raised on the way ends
    the run. *)
Definition process_all (batch_urls : str) : M batch_page :=
  outcome <- process_urls server clock (parse_urls batch_urls) ;;
  match outcome with
  | WarnNoUrl => ret PageWarnNoUrl
  | WarnTooMany => ret PageWarnTooMany
  | Results results =>
      successful <- count_successful results ;;
      let failed := (length results - successful)%nat in
      summary <- summary_rows results ;;
      excel_data <- export_batch results ;;
      file_name <- batch_file_name ;;
      ret (PageDone results successful failed summary excel_data file_name)
  end.

End BatchTab.

(** ** The content-region cascade as the specification words it *)

Module Cascade.

(** An ordered list of selector strategies tried in sequence, each one
    looking for the first element in document order; the first match
    wins. *)
Fixpoint first_match (selectors : list (node -> bool)) (doc : soup)
  : option node :=
  match selectors with
  | [] => None
  | p :: selectors' =>
      match List.find p (descendants doc) with
      | Some t => Some t
      | None => first_match selectors' doc
      end
  end.

(** The text of the selected region; of the whole remaining document
    when no strategy matches. *)
Definition region_text (selectors : list (node -> bool)) (doc : soup) : str :=
  match first_match selectors doc with
  | Some t => get_text [LF] t
  | None => text_of [LF] doc
  end.

(** The priority list with "first element tagged with class content /
    post", whatever the element. *)
Definition any_element_selectors : list (node -> bool) :=
  [named (py "article"); named (py "main");
   has_class (py "content"); has_class (py "post")].

(** The priority list with the two class strategies looking at [div]
    elements only. *)
Definition div_selectors : list (node -> bool) :=
  [named (py "article"); named (py "main");
   named_with_class (py "div") (py "content");
   named_with_class (py "div") (py "post")].

End Cascade.

(** ** Sample pages and worlds *)

Module Samples.

Definition text (s : string) : node := NavigableString (py s).
Arguments text s%_string.
Definition tag (nm : string) (ch : list node) : node := Tag (py nm) [] ch.
Arguments tag nm%_string ch.

(** <html><head><title>News</title></head>
    <body><header><h1>Site</h1></header>
    <article><p> Hello  world </p><p>Bye</p></article></body></html> *)
Definition article_page : soup :=
  [tag "html"
     [tag "head" [tag "title" [text "News"]];
      tag "body"
        [tag "header" [tag "h1" [text "Site"]];
         tag "article" [tag "p" [text " Hello  world "]; tag "p" [text "Bye"]]]]].

(** <html><head><title></title></head><body><h1>Hello</h1></body></html> *)
Definition empty_title_page : soup :=
  [tag "html"
     [tag "head" [tag "title" []];
      tag "body" [tag "h1" [text "Hello"]]]].

(** <section class="content">Story</section><p>Menu</p> *)
Definition section_page : soup :=
  [Tag (py "section") [py "content"] [text "Story"];
   tag "p" [text "Menu"]].

(** <body><p>One</p><p>Two</p></body>: none of the preferred regions. *)
Definition plain_page : soup :=
  [tag "body" [tag "p" [text "One"]; tag "p" [text "Two"]]].

(** <body><p>Ring</p></body>, with the control character U+0007 after
    "Ring". *)
Definition bell_page : soup :=
  [tag "body" [tag "p" [NavigableString (py "Ring" ++ [7%N])]]].

Definition timeout_error : exn :=
  Exception (py "ConnectTimeout") (py "timed out").

Definition rejected_markup : exn :=
  Exception (py "ParserRejectedMarkup") (py "rejected").

Definition not_found : exn :=
  Exception (py "HTTPError") (py "404 Client Error").

(** A small web: five pages, one URL answering 404, one whose markup
    the parser rejects, the rest unreachable. *)
Definition sample_server (_ : list str) (url : str) : get_outcome :=
  if str_eqb url (py "https://www.example.com/path") then
    GetReturns (Response None (Parsed article_page))
  else if str_eqb url (py "https://example.com") then
    GetReturns (Response None (Parsed plain_page))
  else if str_eqb url (py "https://example.com/empty") then
    GetReturns (Response None (Parsed empty_title_page))
  else if str_eqb url (py "https://example.com/section") then
    GetReturns (Response None (Parsed section_page))
  else if str_eqb url (py "https://example.com/bell") then
    GetReturns (Response None (Parsed bell_page))
  else if str_eqb url (py "https://example.com/missing") then
    GetReturns (Response (Some not_found) (Parsed []))
  else if str_eqb url (py "https://example.com/broken") then
    GetReturns (Response None (ParserRaises rejected_markup))
  else GetRaises timeout_error.

Definition sample_clock (_ : nat) : str := py "2024-01-01 00:00:00".

Definition sample_stamp (_ : nat) : str := py "20240101_0000".

(** Libraries that render every entry as a string (a string as it is,
    the rest as "nan"), keep integers as they are and refuse nothing
    more than openpyxl's list. *)
Definition sample_libs : libraries :=
  Libraries
    (map (fun e => match e with
                   | Some (VStr s) => Some s
                   | _ => Some (py "nan")
                   end))
    (fun z => z)
    (fun _ => false)
    (fun _ => Exception (py "IllegalCharacterError")
                (py "cannot be used in worksheets.")).

(** The records [extract_article] returns for the article page and for
    the URL answering 404. *)
Definition record_of_run (run : result dict * world) : dict :=
  match fst run with
  | Ret rec => rec
  | Raise _ => []
  end.

Definition article_record : dict :=
  Eval vm_compute in
    record_of_run (extract_article sample_server sample_clock
                     (py "https://www.example.com/path") initial_world).

Definition missing_record : dict :=
  Eval vm_compute in
    record_of_run (extract_article sample_server sample_clock
                     (py "https://example.com/missing") initial_world).

Definition bell_record : dict :=
  Eval vm_compute in
    record_of_run (extract_article sample_server sample_clock
                     (py "https://example.com/bell") initial_world).

(** Twenty-one URLs. *)
Definition many_urls : list str := repeat (py "https://example.com") 21.

(** Twenty-one URLs without a scheme. *)
Definition many_bare_urls : list str := repeat (py "example.com") 21.

End Samples.

(** ** Vocabulary of the properties *)

(** A string [lstrip] has nothing to remove from. *)
Definition starts_clean (s : str) : Prop :=
  match s with
  | [] => True
  | c :: _ => isspace c = false
  end.

(** A line: no line boundary inside. *)
Definition one_line (l : str) : Prop :=
  Forall (fun c => is_linebreak c = false) l.

(** What a cleaned line looks like. *)
Definition clean_line (l : str) : Prop :=
  one_line l /\ l <> [] /\ strip l = l.

(** The error fetching the page of [url] ends in, if any: raised by
    [requests.get], by [raise_for_status] or by the parser. *)
Definition fetch_error (server : list str -> str -> get_outcome)
    (w : world) (url : str) : option exn :=
  match server (requested w) url with
  | GetRaises e => Some e
  | GetReturns r =>
      match status_error r with
      | Some e => Some e
      | None =>
          match content r with
          | ParserRaises e => Some e
          | Parsed _ => None
          end
      end
  end.

(** The page a request for [url] delivers, if request, status check and
    parser all succeed. *)
Definition fetched_page (server : list str -> str -> get_outcome)
    (w : world) (url : str) : option soup :=
  match server (requested w) url with
  | GetRaises e => None
  | GetReturns r =>
      match status_error r with
      | Some _ => None
      | None =>
          match content r with
          | ParserRaises _ => None
          | Parsed doc => Some doc
          end
      end
  end.

(** A record surfaces an error description: verbatim in [text], and
    after the failure marker in [status]. *)
Definition surfaces_error (description : str) (r : dict) : Prop :=
  dict_get r (py "text") = Some (VStr description) /\
  dict_get r (py "status") = Some (VStr (py "failed: " ++ description)).

Definition has_scheme (url : str) : bool := startswith_any url schemes.

(** The records behind the argument of [create_excel_download]. *)
Definition records_of (data : dict + list dict) : list dict :=
  match data with
  | inl record => [record]
  | inr records => records
  end.

(** A record as [extract_article] builds it: the seven fields in their
    order, a string or [None] for title, an integer for the word count,
    strings elsewhere. *)
Definition article_record (r : dict) : Prop :=
  exists title url domain text words date status,
    r = [(py "title", title);
         (py "url", VStr url);
         (py "domain", VStr domain);
         (py "text", VStr text);
         (py "word_count", VInt words);
         (py "date_extracted", VStr date);
         (py "status", VStr status)] /\
    (title = VNone \/ exists t, title = VStr t).




(** The world after one successful or failed run of [extract_article]:
    one request, one clock reading. *)
Definition after_extract (url : str) (w : world) : world :=
  World (requested w ++ [url]) (S (clock_reads w)) (sleeps w).

(** An element none of the given selectors picks. *)
Definition unselected (selectors : list (node -> bool)) (n : node) : Prop :=
  Forall (fun p => p n = false) selectors.

(** The record the batch loop appends for [url]: the fixed record when
    the scheme is missing, else what [extract_article] returns in the
    world the loop has reached. *)
Definition produced_for (server : list str -> str -> get_outcome)
    (clock : nat -> str) (url : str) (rec : dict) : Prop :=
  if has_scheme url then
    exists w0, extract_article server clock url w0 = (Ret rec, after_extract url w0)
  else rec = invalid_url_record url.

(** ** The single-article tab: the name of the download *)

Section FileName.

(** [c.isalnum()] on one character. *)
Variable isalnum : char -> bool.

(** [s.replace(a, b)] for one-character [a] and [b]. *)
Definition replace_char (a b : char) (s : str) : str :=
  map (fun c => if (c =? a)%N then b else c) s.

(** Line 168:
    ["".join([c for c in result['title'][:20]
              if c.isalnum() or c in (' ', '-', '_')]).rstrip().replace(' ', '_')] *)
Definition safe_title (title : str) : str :=
  replace_char 32%N 95%N
    (rstrip
       (filter (fun c => isalnum c || existsb (N.eqb c) [32; 45; 95]%N)
          (firstn 20 title))).

End FileName.

(** ** More vocabulary *)

(** The part of a string before its first [sep]. *)
Fixpoint before (sep : char) (s : str) : str :=
  match s with
  | [] => []
  | c :: s' => if (c =? sep)%N then [] else c :: before sep s'
  end.

(** A URL as it comes out of the text area: not empty, stripped, on
    one line of the box. *)
Definition entered_url (u : str) : Prop :=
  u <> [] /\ strip u = u /\ ~ In LF u.

(** A tag whose name is among [names]. *)
Definition tag_among (names : list str) (n : node) : bool :=
  match n with
  | Tag nm _ _ => existsb (str_eqb nm) names
  | _ => false
  end.

(** A record the results table can show: string URL and title, a
    status and a word count. *)
Definition tabulable (r : dict) : Prop :=
  (exists u, dict_get r (py "url") = Some (VStr u)) /\
  (exists t, dict_get r (py "title") = Some (VStr t)) /\
  (exists s, dict_get r (py "status") = Some (VStr s)) /\
  (exists n, dict_get r (py "word_count") = Some n).

(** The number of records whose status is "success". *)
Definition successes (results : list dict) : nat :=
  length (filter (fun r =>
                    match dict_get r (py "status") with
                    | Some (VStr s) => str_eqb s (py "success")
                    | _ => false
                    end) results).

(** Every page the server delivers has a title that is a string. *)
Definition titles_are_strings (server : list str -> str -> get_outcome) : Prop :=
  forall history url r doc,
    server history url = GetReturns r ->
    status_error r = None ->
    content r = Parsed doc ->
    exists s, extract_title (decompose_all unwanted doc) = VStr s.

(** A server with one page, unreachable otherwise. *)
Definition one_page_server (_ : list str) (url : str) : get_outcome :=
  if str_eqb url (py "https://www.example.com/path")
  then GetReturns (Response None (Parsed Samples.article_page))
  else GetRaises Samples.timeout_error.

(** ASCII letters and digits, to run [safe_title] on samples. *)
Definition ascii_isalnum (c : char) : bool :=
  ((48 <=? c) && (c <=? 57) || (65 <=? c) && (c <=? 90)
   || (97 <=? c) && (c <=? 122))%N.

(** * Properties *)

Unset Implicit Arguments.

(** ** Strings *)

Section StringFacts.



Lemma truthy_true (s : str) : truthy s = true <-> s <> [].
Proof. destruct s; simpl; split; congruence. Qed.

(** [lstrip] leaves a suffix. *)
Lemma lstrip_suffix (s : str) : exists p, s = p ++ lstrip s.
Proof.
  induction s as [|c s [p IH]]; simpl.
  - now exists [].
  - destruct (isspace c).
    + exists (c :: p). simpl. now f_equal.
    + now exists [].
Qed.

(** [rstrip] leaves a prefix. *)
Lemma rstrip_prefix (s : str) : exists q, s = rstrip s ++ q.
Proof.
  unfold rstrip. destruct (lstrip_suffix (rev s)) as [p Hp].
  exists (rev p). rewrite <- rev_app_distr, <- Hp. now rewrite rev_involutive.
Qed.

Lemma lstrip_starts_clean (s : str) : starts_clean (lstrip s).
Proof.
  induction s as [|c s IH]; simpl; [exact I|].
  destruct (isspace c) eqn:E; [exact IH | exact E].
Qed.

Lemma lstrip_fixed (s : str) : starts_clean s -> lstrip s = s.
Proof. destruct s as [|c s]; simpl; [reflexivity|]. now intros ->. Qed.

Lemma lstrip_idem (s : str) : lstrip (lstrip s) = lstrip s.
Proof. apply lstrip_fixed, lstrip_starts_clean. Qed.

Lemma rstrip_idem (s : str) : rstrip (rstrip s) = rstrip s.
Proof. unfold rstrip. now rewrite rev_involutive, lstrip_idem. Qed.

Lemma rstrip_starts_clean (s : str) : starts_clean s -> starts_clean (rstrip s).
Proof.
  intros H. destruct (rstrip_prefix s) as [q Hq].
  destruct (rstrip s) as [|c r]; [exact I|].
  rewrite Hq in H. exact H.
Qed.

Lemma strip_idem (s : str) : strip (strip s) = strip s.
Proof.
  unfold strip.
  rewrite (lstrip_fixed _ (rstrip_starts_clean _ (lstrip_starts_clean s))).
  apply rstrip_idem.
Qed.

Lemma lstrip_Forall (P : char -> Prop) (s : str) :
  Forall P s -> Forall P (lstrip s).
Proof.
  induction 1 as [|c s Hc Hs IH]; simpl; [constructor|].
  destruct (isspace c); [exact IH | now constructor].
Qed.

Lemma strip_Forall (P : char -> Prop) (s : str) :
  Forall P s -> Forall P (strip s).
Proof.
  intros H. unfold strip, rstrip.
  apply Forall_rev, lstrip_Forall, Forall_rev, lstrip_Forall, H.
Qed.

Lemma splitlines_one_line_upto (n : nat) (s : str) :
  (length s <= n)%nat -> Forall one_line (splitlines s).
Proof.
  revert s. induction n as [|n IH]; intros [|c rest] Hlen; simpl in *;
    try (constructor; fail); try lia.
  destruct (is_linebreak c) eqn:Ec.
  - constructor; [constructor|].
    destruct rest as [|c' rest']; [constructor|].
    destruct ((c =? CR)%N && (c' =? LF)%N); apply IH; simpl in *; lia.
  - assert (Hrest : Forall one_line (splitlines rest)) by (apply IH; lia).
    destruct (splitlines rest) as [|l ls].
    + repeat constructor. exact Ec.
    + inversion Hrest; subst. constructor; [now constructor | assumption].
Qed.

Lemma splitlines_one_line (s : str) : Forall one_line (splitlines s).
Proof. now apply (splitlines_one_line_upto (length s)). Qed.

(** A line followed by a newline is the first line of the whole. *)
Lemma splitlines_line_LF (l rest : str) :
  one_line l -> splitlines (l ++ LF :: rest) = l :: splitlines rest.
Proof.
  induction 1 as [|c l Hc Hl IH]; simpl.
  - now destruct rest.
  - now rewrite Hc, IH.
Qed.

Lemma splitlines_last_line (l : str) :
  one_line l -> l <> [] -> splitlines l = [l].
Proof.
  induction 1 as [|c l Hc Hl IH]; intros Hne; [congruence|].
  simpl. rewrite Hc. destruct l as [|c' l']; [reflexivity|].
  rewrite IH by congruence. reflexivity.
Qed.

Lemma splitlines_join (ls : list str) :
  Forall (fun l => one_line l /\ l <> []) ls ->
  splitlines (join [LF] ls) = ls.
Proof.
  induction 1 as [|l ls [Hl Hne] Hls IH]; [reflexivity|].
  destruct ls as [|l' ls'].
  - simpl. now apply splitlines_last_line.
  - change (join [LF] (l :: l' :: ls')) with (l ++ LF :: join [LF] (l' :: ls')).
    now rewrite splitlines_line_LF, IH.
Qed.

Lemma clean_lines_clean (text : str) : Forall clean_line (clean_lines text).
Proof.
  unfold clean_lines.
  pose proof (splitlines_one_line text) as H.
  induction H as [|l ls Hl Hls IH]; simpl; [constructor|].
  destruct (truthy (strip l)) eqn:E; [|exact IH].
  simpl. constructor; [|exact IH].
  repeat split.
  - now apply strip_Forall.
  - now apply truthy_true.
  - apply strip_idem.
Qed.

Lemma clean_lines_fixed (ls : list str) :
  Forall clean_line ls ->
  map strip (filter (fun line => truthy (strip line)) ls) = ls.
Proof.
  induction 1 as [|l ls (Hl & Hne & Hs) Hls IH]; [reflexivity|].
  simpl. rewrite Hs. destruct l; [congruence|].
  simpl. now rewrite Hs, IH.
Qed.

Lemma clean_lines_join (ls : list str) :
  Forall clean_line ls -> clean_lines (join [LF] ls) = ls.
Proof.
  intros H. unfold clean_lines. rewrite splitlines_join.
  - now apply clean_lines_fixed.
  - eapply Forall_impl; [|exact H]. intros l (Hl & Hne & _). now split.
Qed.

End StringFacts.

(** C10. Cleaning the text (split into lines, strip each, drop the empty
    ones, join with newline) is idempotent: cleaning a cleaned text
    changes nothing, and a cleaned text has no blank line and no line
    with leading or trailing whitespace. *)
Theorem normalize_idempotent (t : str) :
  normalize (normalize t) = normalize t /\
  Forall (fun line => line <> [] /\ strip line = line)
         (splitlines (normalize t)).
Proof.
  pose proof (clean_lines_clean t) as H.
  assert (E : clean_lines (normalize t) = clean_lines t)
    by (unfold normalize; now apply clean_lines_join).
  split.
  - unfold normalize at 1. now rewrite E.
  - unfold normalize. rewrite splitlines_join.
    + eapply Forall_impl; [|exact H]. intros l (_ & Hne & Hs). now split.
    + eapply Forall_impl; [|exact H]. intros l (Hl & Hne & _). now split.
Qed.

(** ** Running [extract_article] *)

Section Runs.

Variable server : list str -> str -> get_outcome.
Variable clock : nat -> str.

(** The record of the success path, as [extract_article] builds it. *)
Lemma extract_article_fetched (url : str) (w : world) (page : soup) :
  fetched_page server w url = Some page ->
  extract_article server clock url w =
  (Ret [(py "title", extract_title (decompose_all unwanted page));
        (py "url", VStr url);
        (py "domain", VStr (domain_of url));
        (py "text",
          VStr (normalize (extract_text (decompose_all unwanted page))));
        (py "word_count",
          VInt (Z.of_nat (length (split_ws
            (normalize (extract_text (decompose_all unwanted page)))))));
        (py "date_extracted", VStr (clock (clock_reads w)));
        (py "status", VStr (py "success"))],
   after_extract url w).
Proof.
  unfold fetched_page, extract_article, try_except, bind, requests_get,
    raise_for_status, BeautifulSoup.
  destruct (server (requested w) url) as [e|r]; [discriminate|].
  destruct (status_error r); [discriminate|].
  destruct (content r) as [e|doc]; [discriminate|].
  intros [= <-]. reflexivity.
Qed.

(** The record of the failure path. *)
Lemma extract_article_failed (url : str) (w : world) (e : exn) :
  fetch_error server w url = Some e ->
  extract_article server clock url w =
  (Ret [(py "title", VStr (py "Error"));
        (py "url", VStr url);
        (py "domain", VStr (py "error"));
        (py "text", VStr (exn_str e));
        (py "word_count", VInt 0);
        (py "date_extracted", VStr (clock (clock_reads w)));
        (py "status", VStr (py "failed: " ++ exn_str e))],
   after_extract url w).
Proof.
  unfold fetch_error, extract_article, try_except, bind, requests_get,
    raise_for_status, BeautifulSoup.
  destruct (server (requested w) url) as [e'|r].
  - intros [= <-]. reflexivity.
  - destruct (status_error r).
    + intros [= <-]. reflexivity.
    + destruct (content r) as [e'|doc]; [|discriminate].
      intros [= <-]. reflexivity.
Qed.

(** A request ends in an error or delivers a page. *)
Lemma fetch_error_or_page (url : str) (w : world) :
  (exists e, fetch_error server w url = Some e) \/
  (exists page, fetched_page server w url = Some page).
Proof.
  unfold fetch_error, fetched_page.
  destruct (server (requested w) url) as [e|r]; [left; now exists e|].
  destruct (status_error r) as [e|]; [left; now exists e|].
  destruct (content r) as [e|doc]; [left; now exists e|].
  right. now eexists.
Qed.

(** A page is delivered exactly when nothing raised. *)
Lemma fetched_page_no_error (url : str) (w : world) (page : soup) :
  fetched_page server w url = Some page -> fetch_error server w url = None.
Proof.
  unfold fetch_error, fetched_page.
  destruct (server (requested w) url) as [e|r]; [discriminate|].
  destruct (status_error r); [discriminate|].
  now destruct (content r).
Qed.

(** [extract_article] returns a record with the seven fields, the URL
    it was given among them, after one request and one clock reading. *)
Lemma extract_article_returns (url : str) (w : world) :
  exists rec,
    extract_article server clock url w = (Ret rec, after_extract url w) /\
    keys rec = article_fields /\
    dict_get rec (py "url") = Some (VStr url).
Proof.
  destruct (fetch_error_or_page url w) as [[e He]|[page Hp]].
  - rewrite (extract_article_failed _ _ _ He). eexists. split; [reflexivity|].
    split; reflexivity.
  - rewrite (extract_article_fetched _ _ _ Hp). eexists. split; [reflexivity|].
    split; reflexivity.
Qed.

(** In the record of [extract_article] the word count is a
    non-negative integer, 0 when the request failed, and the date is
    the string the clock gave. *)
Lemma extract_article_counts (url : str) (w : world) :
  exists rec n,
    extract_article server clock url w = (Ret rec, after_extract url w) /\
    dict_get rec (py "word_count") = Some (VInt n) /\
    (0 <= n)%Z /\
    (fetch_error server w url <> None -> n = 0%Z) /\
    dict_get rec (py "date_extracted") = Some (VStr (clock (clock_reads w))).
Proof.
  destruct (fetch_error_or_page url w) as [[e He]|[page Hp]].
  - rewrite (extract_article_failed _ _ _ He). do 2 eexists.
    split; [reflexivity|]. split; [reflexivity|].
    split; [lia|]. split; reflexivity.
  - rewrite (extract_article_fetched _ _ _ Hp). do 2 eexists.
    split; [reflexivity|]. split; [reflexivity|].
    split; [apply Nat2Z.is_nonneg|]. split; [|reflexivity].
    intros Herr. exfalso. apply Herr.
    exact (fetched_page_no_error _ _ _ Hp).
Qed.

End Runs.

(** ** The domain *)

Lemma split_on_length (sep : char) (s : str) :
  length (split_on sep s) = S (count_occ N.eq_dec s sep).
Proof.
  induction s as [|c s IH]; [reflexivity|].
  simpl. destruct (N.eqb_spec c sep) as [->|Hne].
  - destruct (N.eq_dec sep sep); [|congruence]. simpl. now rewrite IH.
  - destruct (N.eq_dec c sep); [congruence|].
    destruct (split_on sep s); simpl in *; [discriminate|exact IH].
Qed.

Lemma domain_of_few_slashes (url : str) :
  (count_occ N.eq_dec url slash < 2)%nat -> domain_of url = py "unknown".
Proof.
  intros H. unfold domain_of. rewrite split_on_length.
  destruct (Nat.ltb_spec 2 (S (count_occ N.eq_dec url slash))); [lia|reflexivity].
Qed.

(** C1, as amended. On the success path the record's domain is the
    third segment of the URL split on "/": "www.example.com" for
    "https://www.example.com/path" and "example.com" for
    "https://example.com" (three segments: "https:", "", "example.com");
    it is "unknown" when the URL has fewer than two slashes. *)
Theorem domain_boundary (server : list str -> str -> get_outcome)
    (clock : nat -> str) (url : str) (w : world) (page : soup) :
  fetched_page server w url = Some page ->
  exists rec w',
    extract_article server clock url w = (Ret rec, w') /\
    dict_get rec (py "domain") = Some (VStr (domain_of url)) /\
    (url = py "https://www.example.com/path" ->
     domain_of url = py "www.example.com") /\
    (url = py "https://example.com" -> domain_of url = py "example.com") /\
    ((count_occ N.eq_dec url slash < 2)%nat -> domain_of url = py "unknown").
Proof.
  intros Hp. rewrite (extract_article_fetched server clock _ _ _ Hp).
  do 2 eexists. split; [reflexivity|]. split; [reflexivity|].
  split; [|split].
  - intros ->. reflexivity.
  - intros ->. reflexivity.
  - apply domain_of_few_slashes.
Qed.

Lemma domain_boundary_witness :
  fetched_page Samples.sample_server initial_world
    (py "https://www.example.com/path") = Some Samples.article_page /\
  exists rec w',
    extract_article Samples.sample_server Samples.sample_clock
      (py "https://www.example.com/path") initial_world = (Ret rec, w') /\
    dict_get rec (py "domain") = Some (VStr (py "www.example.com")).
Proof.
  split; [reflexivity|].
  destruct (domain_boundary Samples.sample_server Samples.sample_clock
              (py "https://www.example.com/path") initial_world
              Samples.article_page eq_refl)
    as (rec & w' & Hrun & Hd & Hwww & _).
  exists rec, w'. split; [exact Hrun|].
  rewrite Hd. rewrite (Hwww eq_refl). reflexivity.
Defined.

(** C1 as stated fails: the record for "https://example.com" has the
    domain "example.com", not "unknown". *)
Lemma domain_bare_host_is_not_unknown :
  exists rec w',
    extract_article Samples.sample_server Samples.sample_clock
      (py "https://example.com") initial_world = (Ret rec, w') /\
    dict_get rec (py "status") = Some (VStr (py "success")) /\
    dict_get rec (py "domain") = Some (VStr (py "example.com")) /\
    dict_get rec (py "domain") <> Some (VStr (py "unknown")).
Proof.
  do 2 eexists. split; [vm_compute; reflexivity|].
  split; [reflexivity|]. split; [reflexivity|]. discriminate.
Qed.

(** ** The failure boundary *)

(** C6. [extract_article] returns a record for every URL in every
    world and never raises: when the request, the status check or the
    parser fails, the error becomes a failure record carrying its
    description, and otherwise the record has the success status. *)
Theorem extract_article_never_raises (server : list str -> str -> get_outcome)
    (clock : nat -> str) (url : str) (w : world) :
  exists rec w',
    extract_article server clock url w = (Ret rec, w') /\
    keys rec = article_fields /\
    match fetch_error server w url with
    | Some e => surfaces_error (exn_str e) rec
    | None => dict_get rec (py "status") = Some (VStr (py "success"))
    end /\
    match server (requested w) url with
    | GetRaises e => surfaces_error (exn_str e) rec
    | GetReturns r =>
        match status_error r, content r with
        | Some e, _ => surfaces_error (exn_str e) rec
        | None, ParserRaises e => surfaces_error (exn_str e) rec
        | None, Parsed _ =>
            dict_get rec (py "status") = Some (VStr (py "success"))
        end
    end.
Proof.
  assert (Hsame :
    forall rec,
      match fetch_error server w url with
      | Some e => surfaces_error (exn_str e) rec
      | None => dict_get rec (py "status") = Some (VStr (py "success"))
      end ->
      match server (requested w) url with
      | GetRaises e => surfaces_error (exn_str e) rec
      | GetReturns r =>
          match status_error r, content r with
          | Some e, _ => surfaces_error (exn_str e) rec
          | None, ParserRaises e => surfaces_error (exn_str e) rec
          | None, Parsed _ =>
              dict_get rec (py "status") = Some (VStr (py "success"))
          end
      end).
  { intros rec. unfold fetch_error.
    destruct (server (requested w) url) as [e|r]; [trivial|].
    destruct (status_error r); [trivial|]. now destruct (content r). }
  destruct (fetch_error server w url) as [e|] eqn:He.
  - rewrite (extract_article_failed server clock _ _ _ He).
    do 2 eexists. split; [reflexivity|]. split; [reflexivity|].
    assert (Hs : surfaces_error (exn_str e)
                   [(py "title", VStr (py "Error")); (py "url", VStr url);
                    (py "domain", VStr (py "error"));
                    (py "text", VStr (exn_str e)); (py "word_count", VInt 0);
                    (py "date_extracted", VStr (clock (clock_reads w)));
                    (py "status", VStr (py "failed: " ++ exn_str e))])
      by (split; reflexivity).
    split; [exact Hs | exact (Hsame _ Hs)].
  - destruct (fetch_error_or_page server url w) as [[e He']|[page Hp]];
      [congruence|].
    rewrite (extract_article_fetched server clock _ _ _ Hp).
    do 2 eexists. split; [reflexivity|]. split; [reflexivity|].
    split; [reflexivity | apply Hsame; reflexivity].
Qed.

(** C4, as amended. A failure record of [extract_article] carries the
    error's description verbatim in [text] and after "failed: " in
    [status], with title "Error", domain "error" and word count 0. The
    record of the batch pre-validation carries the fixed message
    "failed: Missing http:// or https://" in [status] and an empty
    [text]. *)
Theorem failure_record_contents (server : list str -> str -> get_outcome)
    (clock : nat -> str) (url : str) (w : world) (e : exn) :
  fetch_error server w url = Some e ->
  (exists rec w',
     extract_article server clock url w = (Ret rec, w') /\
     surfaces_error (exn_str e) rec /\
     dict_get rec (py "title") = Some (VStr (py "Error")) /\
     dict_get rec (py "domain") = Some (VStr (py "error")) /\
     dict_get rec (py "word_count") = Some (VInt 0)) /\
  dict_get (invalid_url_record url) (py "status") =
    Some (VStr (py "failed: Missing http:// or https://")) /\
  dict_get (invalid_url_record url) (py "text") = Some (VStr []).
Proof.
  intros He. split; [|split; reflexivity].
  rewrite (extract_article_failed server clock _ _ _ He).
  do 2 eexists. split; [reflexivity|].
  split; [split; reflexivity|]. repeat split.
Qed.

Lemma failure_record_contents_witness :
  fetch_error Samples.sample_server initial_world
    (py "https://example.com/missing") = Some Samples.not_found /\
  exists rec w',
    extract_article Samples.sample_server Samples.sample_clock
      (py "https://example.com/missing") initial_world = (Ret rec, w') /\
    surfaces_error (py "404 Client Error") rec.
Proof.
  split; [reflexivity|].
  destruct (failure_record_contents Samples.sample_server Samples.sample_clock
              (py "https://example.com/missing") initial_world
              Samples.not_found eq_refl)
    as ((rec & w' & Hrun & Hs & _) & _).
  exists rec, w'. split; [exact Hrun | exact Hs].
Defined.

(** C4 as stated fails: the record of a URL without a scheme has a
    failure status whose description is in no way in its [text]. *)
Lemma prevalidation_record_hides_error :
  exists rec w',
    batch_loop Samples.sample_server Samples.sample_clock
      [py "example.com"] [] initial_world = (Ret [rec], w') /\
    dict_get rec (py "status") =
      Some (VStr (py "failed: Missing http:// or https://")) /\
    dict_get rec (py "text") = Some (VStr []) /\
    forall description, ~ surfaces_error description rec.
Proof.
  do 2 eexists. split; [vm_compute; reflexivity|].
  split; [reflexivity|]. split; [reflexivity|].
  intros d [Ht Hs]. vm_compute in Ht. injection Ht as <-.
  vm_compute in Hs. discriminate.
Qed.

(** ** The batch loop *)

Section BatchLoop.

Variable server : list str -> str -> get_outcome.
Variable clock : nat -> str.

Lemma produced_for_url (url : str) (rec : dict) :
  produced_for server clock url rec ->
  dict_get rec (py "url") = Some (VStr url).
Proof.
  unfold produced_for. destruct (has_scheme url).
  - intros [w0 Hrun].
    destruct (extract_article_returns server clock url w0)
      as (rec' & Hrun' & _ & Hurl).
    congruence.
  - intros ->. reflexivity.
Qed.

(** The loop runs to its end: it appends one record per URL, in order,
    and requests exactly the URLs that have a scheme. *)
Lemma batch_loop_spec (urls : list str) :
  forall (results : list dict) (w : world),
  exists recs w',
    batch_loop server clock urls results w = (Ret (results ++ recs), w') /\
    Forall2 (produced_for server clock) urls recs /\
    requested w' = requested w ++ filter has_scheme urls.
Proof.
  induction urls as [|url urls IH]; intros results w.
  - exists [], w. simpl. unfold ret. rewrite !app_nil_r. repeat split.
    constructor.
  - cbn [batch_loop]. fold (has_scheme url).
    destruct (has_scheme url) eqn:Hs; cbn [negb].
    + destruct (extract_article_returns server clock url w)
        as (rec & Hrun & _).
      unfold bind at 1. rewrite Hrun.
      unfold bind at 1, sleep at 1.
      destruct (IH (results ++ [rec])
                  (World (requested (after_extract url w))
                     (clock_reads (after_extract url w))
                     (S (sleeps (after_extract url w)))))
        as (recs & w' & Hloop & Hall & Hreq).
      exists (rec :: recs), w'. rewrite Hloop, <- app_assoc. simpl.
      split; [reflexivity|]. split.
      * constructor; [|exact Hall].
        unfold produced_for. rewrite Hs. now exists w.
      * rewrite Hreq. cbn [filter requested after_extract]. rewrite Hs.
        now rewrite <- app_assoc.
    + destruct (IH (results ++ [invalid_url_record url]) w)
        as (recs & w' & Hloop & Hall & Hreq).
      exists (invalid_url_record url :: recs), w'.
      rewrite Hloop, <- app_assoc. simpl.
      split; [reflexivity|]. split.
      * constructor; [|exact Hall].
        unfold produced_for. now rewrite Hs.
      * rewrite Hreq. cbn [filter]. now rewrite Hs.
Qed.

Lemma Forall2_nth_error {A B} (R : A -> B -> Prop) (l : list A) (l' : list B) :
  Forall2 R l l' ->
  forall i a, nth_error l i = Some a ->
  exists b, nth_error l' i = Some b /\ R a b.
Proof.
  induction 1 as [|a0 b0 l l' Hab Hll IH]; intros [|i] a Hi; simpl in *;
    try discriminate.
  - injection Hi as <-. now exists b0.
  - now apply IH.
Qed.

Lemma produced_urls (urls : list str) (recs : list dict) :
  Forall2 (produced_for server clock) urls recs ->
  map (fun r => dict_get r (py "url")) recs =
  map (fun u => Some (VStr u)) urls.
Proof.
  induction 1 as [|u r us rs Hur Hall IH]; [reflexivity|].
  simpl. now rewrite (produced_for_url _ _ Hur), IH.
Qed.

End BatchLoop.

(** C2, as amended. For a sequence of 1 to 20 URLs the batch yields
    exactly one record per URL, in the order of the input, each record
    carrying its URL; for more than 20 URLs it only warns and yields no
    record at all. *)
Theorem batch_one_record_per_url (server : list str -> str -> get_outcome)
    (clock : nat -> str) (urls : list str) (w : world) :
  urls <> [] ->
  if (20 <? length urls)%nat then
    process_urls server clock urls w = (Ret WarnTooMany, w)
  else
    exists results w',
      process_urls server clock urls w = (Ret (Results results), w') /\
      length results = length urls /\
      Forall2 (produced_for server clock) urls results /\
      map (fun r => dict_get r (py "url")) results =
      map (fun u => Some (VStr u)) urls.
Proof.
  intros Hne. unfold process_urls.
  destruct urls as [|u us]; [congruence|].
  destruct (20 <? length (u :: us))%nat; [reflexivity|].
  destruct (batch_loop_spec server clock (u :: us) [] w)
    as (recs & w' & Hloop & Hall & _).
  exists recs, w'. unfold bind. rewrite Hloop. simpl.
  split; [reflexivity|]. split; [|split].
  - symmetry. exact (Forall2_length Hall).
  - exact Hall.
  - exact (produced_urls server clock _ _ Hall).
Qed.

Lemma batch_one_record_per_url_witness :
  [py "example.com"; py "https://example.com"] <> [] /\
  exists results w',
    process_urls Samples.sample_server Samples.sample_clock
      [py "example.com"; py "https://example.com"] initial_world =
      (Ret (Results results), w') /\
    length results = 2%nat.
Proof.
  split; [discriminate|].
  pose proof (batch_one_record_per_url Samples.sample_server
                Samples.sample_clock
                [py "example.com"; py "https://example.com"] initial_world
                ltac:(discriminate)) as H.
  cbv beta iota in H. simpl Nat.ltb in H.
  destruct H as (results & w' & Hrun & Hlen & _).
  exists results, w'. split; [exact Hrun | exact Hlen].
Defined.

(** C2 as stated fails: twenty-one URLs yield a warning and no record. *)
Lemma batch_over_twenty_yields_nothing :
  length Samples.many_urls = 21%nat /\
  process_urls Samples.sample_server Samples.sample_clock Samples.many_urls
    initial_world = (Ret WarnTooMany, initial_world) /\
  forall results w',
    process_urls Samples.sample_server Samples.sample_clock Samples.many_urls
      initial_world <> (Ret (Results results), w').
Proof.
  split; [reflexivity|]. split; [reflexivity|].
  intros results w' H. vm_compute in H. discriminate.
Qed.

(** C5, as amended. In a batch of 1 to 20 URLs, a URL without
    "http://" or "https://" in front is never requested: exactly the
    URLs that have a scheme are requested, the record at the URL's
    position is the fixed record with title "Invalid URL" and the
    missing-scheme status, and processing such a URL alone leaves the
    world as it was. In a batch of more than 20 URLs nothing is
    processed: no request is made and no record is produced. *)
Theorem scheme_less_url_is_not_fetched
    (server : list str -> str -> get_outcome) (clock : nat -> str)
    (urls : list str) (w : world) (i : nat) (url : str) :
  nth_error urls i = Some url ->
  has_scheme url = false ->
  exists results w',
    batch_loop server clock urls [] w = (Ret results, w') /\
    nth_error results i = Some (invalid_url_record url) /\
    requested w' = requested w ++ filter has_scheme urls /\
    ~ In url (filter has_scheme urls) /\
    batch_loop server clock [url] [] w = (Ret [invalid_url_record url], w) /\
    dict_get (invalid_url_record url) (py "title") =
      Some (VStr (py "Invalid URL")) /\
    dict_get (invalid_url_record url) (py "status") =
      Some (VStr (py "failed: Missing http:// or https://")) /\
    process_urls server clock urls w =
      if (20 <? length urls)%nat then (Ret WarnTooMany, w)
      else (Ret (Results results), w').
Proof.
  intros Hi Hs.
  destruct (batch_loop_spec server clock urls [] w)
    as (recs & w' & Hloop & Hall & Hreq).
  exists recs, w'. split; [exact Hloop|].
  split; [|split; [exact Hreq|split; [|split; [|split; [|split]]]]];
    try reflexivity.
  - destruct (Forall2_nth_error _ _ _ Hall i url Hi) as (rec & Hrec & Hp).
    unfold produced_for in Hp. rewrite Hs in Hp. now subst rec.
  - rewrite filter_In. intros [_ H]. congruence.
  - cbn [batch_loop]. fold (has_scheme url). rewrite Hs. reflexivity.
  - unfold process_urls.
    destruct urls as [|u us]; [now destruct i|].
    destruct (20 <? length (u :: us))%nat; [reflexivity|].
    unfold bind. rewrite Hloop. reflexivity.
Qed.

Lemma scheme_less_url_is_not_fetched_witness :
  nth_error [py "https://example.com"; py "example.com"] 1 =
    Some (py "example.com") /\
  has_scheme (py "example.com") = false /\
  exists results w',
    process_urls Samples.sample_server Samples.sample_clock
      [py "https://example.com"; py "example.com"] initial_world =
      (Ret (Results results), w') /\
    nth_error results 1 = Some (invalid_url_record (py "example.com")) /\
    requested w' = [py "https://example.com"].
Proof.
  split; [reflexivity|]. split; [reflexivity|].
  destruct (scheme_less_url_is_not_fetched Samples.sample_server
              Samples.sample_clock
              [py "https://example.com"; py "example.com"] initial_world
              1 (py "example.com") eq_refl eq_refl)
    as (results & w' & _ & Hrec & Hreq & _ & _ & _ & _ & Hrun).
  exists results, w'. split; [exact Hrun|]. split; [exact Hrec|].
  rewrite Hreq. reflexivity.
Defined.

(** C5 as stated fails: of twenty-one URLs without a scheme none gets
    its failure record; the batch is refused as a whole. *)
Lemma scheme_less_urls_beyond_twenty_get_no_record :
  length Samples.many_bare_urls = 21%nat /\
  nth_error Samples.many_bare_urls 0 = Some (py "example.com") /\
  has_scheme (py "example.com") = false /\
  process_urls Samples.sample_server Samples.sample_clock
    Samples.many_bare_urls initial_world = (Ret WarnTooMany, initial_world) /\
  forall results w',
    process_urls Samples.sample_server Samples.sample_clock
      Samples.many_bare_urls initial_world <> (Ret (Results results), w').
Proof.
  split; [reflexivity|]. split; [reflexivity|]. split; [reflexivity|].
  split; [reflexivity|].
  intros results w' H. vm_compute in H. discriminate.
Qed.

(** C3: the code at the failing input. The record the batch appends
    for a URL without a scheme has four fields only: no [domain], no
    [word_count], no [date_extracted]; the results table that follows
    asks every record for its [word_count] and raises KeyError. *)
Theorem invalid_url_record_misses_fields :
  exists rec w',
    process_urls Samples.sample_server Samples.sample_clock
      [py "example.com"] initial_world = (Ret (Results [rec]), w') /\
    keys rec = [py "url"; py "title"; py "status"; py "text"] /\
    dict_get rec (py "domain") = None /\
    dict_get rec (py "word_count") = None /\
    dict_get rec (py "date_extracted") = None /\
    fst (process_all Samples.sample_server Samples.sample_clock
           Samples.sample_stamp Samples.sample_libs (py "example.com")
           initial_world) =
      Raise (Exception (py "KeyError") (py "'word_count'")).
Proof.
  do 2 eexists. split; [vm_compute; reflexivity|].
  repeat split; vm_compute; reflexivity.
Qed.

(** ** The export *)

Section ExportFacts.

Variable libs : libraries.






(** The entries of an article record under the seven columns: its
    values, none missing. *)
Lemma article_record_entries (r : dict) :
  article_record r ->
  map (dict_get r) article_fields = map (fun kv => Some (snd kv)) r.
Proof.
  intros (title & url & domain & text & words & date & status & -> & _).
  reflexivity.
Qed.










End ExportFacts.





(** ** Searching the document *)

Section TreeFacts.

(** Induction over a tree, with the property known of every child. *)
Lemma node_tree_ind (P : node -> Prop) :
  (forall s, P (NavigableString s)) ->
  (forall s, P (Comment s)) ->
  (forall nm cls ch, Forall P ch -> P (Tag nm cls ch)) ->
  forall n, P n.
Proof.
  intros Hstr Hcom Htag. fix IH 1. intros [s|s|nm cls ch].
  - apply Hstr.
  - apply Hcom.
  - apply Htag. induction ch as [|c ch IHch]; constructor.
    + apply IH.
    + exact IHch.
Qed.

Variable p : node -> bool.

Lemma find_in_app (l l' : list node) :
  List.find p (l ++ l') =
  match List.find p l with
  | Some t => Some t
  | None => List.find p l'
  end.
Proof.
  induction l as [|a l IH]; [reflexivity|].
  simpl. now destruct (p a).
Qed.

(** [find_node] returns the first match in document order. *)
Lemma find_node_first (n : node) :
  find_node p n = List.find p (self_and_descendants n).
Proof.
  induction n as [s|s|nm cls ch IH] using node_tree_ind.
  - simpl. now destruct (p _).
  - simpl. now destruct (p _).
  - cbn [find_node self_and_descendants List.find].
    destruct (p (Tag nm cls ch)); [reflexivity|].
    induction IH as [|c ch' Hc Hch IHch]; [reflexivity|].
    cbn [flat_map]. rewrite find_in_app, <- Hc.
    destruct (find_node p c); [reflexivity | exact IHch].
Qed.

Lemma find_first (doc : soup) :
  find p doc = List.find p (descendants doc).
Proof.
  induction doc as [|c doc IH]; [reflexivity|].
  unfold descendants. cbn [find flat_map].
  rewrite find_in_app, <- find_node_first.
  destruct (find_node p c); [reflexivity | exact IH].
Qed.

Lemma find_none_of (l : list node) :
  Forall (fun n => p n = false) l -> List.find p l = None.
Proof.
  induction 1 as [|a l Ha Hl IH]; [reflexivity|].
  simpl. now rewrite Ha.
Qed.

End TreeFacts.

(** The cascade of line 68 is the list of strategies [div_selectors],
    each one taking the first match in document order. *)
Lemma article_body_cascade (doc : soup) :
  article_body doc = Cascade.first_match Cascade.div_selectors doc.
Proof.
  unfold article_body, py_or, Cascade.div_selectors.
  cbn [Cascade.first_match]. rewrite !find_first.
  repeat match goal with
         | |- context [List.find ?q ?l] => destruct (List.find q l)
         end; reflexivity.
Qed.

Lemma first_match_none (selectors : list (node -> bool)) (doc : soup) :
  Forall (unselected selectors) (descendants doc) ->
  Cascade.first_match selectors doc = None.
Proof.
  intros H. induction selectors as [|q selectors IH]; [reflexivity|].
  cbn [Cascade.first_match]. rewrite find_none_of.
  - apply IH. eapply Forall_impl; [|exact H].
    intros n Hn. now inversion Hn.
  - eapply Forall_impl; [|exact H].
    intros n Hn. now inversion Hn.
Qed.

Lemma extract_text_cascade (doc : soup) :
  extract_text doc = Cascade.region_text Cascade.div_selectors doc.
Proof.
  unfold extract_text, Cascade.region_text. now rewrite article_body_cascade.
Qed.

(** C8, as amended. After the unwanted elements are removed, the text
    is taken from the first <article>, else the first <main>, else the
    first <div> of class "content", else the first <div> of class
    "post", each first in document order, else from the whole remaining
    document; when no element is picked by any of the four strategies
    the record still has the success status, with the text of the whole
    remaining document. *)
Theorem content_region_cascade (server : list str -> str -> get_outcome)
    (clock : nat -> str) (url : str) (w : world) (page : soup) :
  fetched_page server w url = Some page ->
  exists rec w',
    extract_article server clock url w = (Ret rec, w') /\
    dict_get rec (py "status") = Some (VStr (py "success")) /\
    dict_get rec (py "text") =
      Some (VStr (normalize (Cascade.region_text Cascade.div_selectors
                               (decompose_all unwanted page)))) /\
    (Forall (unselected Cascade.div_selectors)
       (descendants (decompose_all unwanted page)) ->
     dict_get rec (py "text") =
       Some (VStr (normalize (text_of [LF] (decompose_all unwanted page))))).
Proof.
  intros Hp. rewrite (extract_article_fetched server clock _ _ _ Hp).
  do 2 eexists. split; [reflexivity|]. split; [reflexivity|].
  change (dict_get _ (py "text"))
    with (Some (VStr (normalize
                        (extract_text (decompose_all unwanted page))))).
  rewrite extract_text_cascade. split; [reflexivity|].
  intros Hnone. unfold Cascade.region_text.
  now rewrite (first_match_none _ _ Hnone).
Qed.

Lemma content_region_cascade_witness :
  fetched_page Samples.sample_server initial_world (py "https://example.com") =
    Some Samples.plain_page /\
  Forall (unselected Cascade.div_selectors)
    (descendants (decompose_all unwanted Samples.plain_page)) /\
  exists rec w',
    extract_article Samples.sample_server Samples.sample_clock
      (py "https://example.com") initial_world = (Ret rec, w') /\
    dict_get rec (py "text") = Some (VStr (py "One" ++ [LF] ++ py "Two")).
Proof.
  assert (Hnone : Forall (unselected Cascade.div_selectors)
                    (descendants (decompose_all unwanted Samples.plain_page)))
    by (repeat constructor).
  split; [reflexivity|]. split; [exact Hnone|].
  destruct (content_region_cascade Samples.sample_server Samples.sample_clock
              (py "https://example.com") initial_world Samples.plain_page
              eq_refl)
    as (rec & w' & Hrun & _ & _ & Hbody).
  exists rec, w'. split; [exact Hrun|].
  rewrite (Hbody Hnone). reflexivity.
Defined.

(** C8 as stated fails: an element of class "content" that is not a
    <div> is not taken as the region; the text is that of the whole
    document. *)
Lemma class_content_outside_div_is_ignored :
  exists rec w',
    extract_article Samples.sample_server Samples.sample_clock
      (py "https://example.com/section") initial_world = (Ret rec, w') /\
    dict_get rec (py "text") = Some (VStr (py "Story" ++ [LF] ++ py "Menu")) /\
    normalize (Cascade.region_text Cascade.any_element_selectors
                 (decompose_all unwanted Samples.section_page)) = py "Story" /\
    dict_get rec (py "text") <>
      Some (VStr (normalize
                    (Cascade.region_text Cascade.any_element_selectors
                       (decompose_all unwanted Samples.section_page)))).
Proof.
  do 2 eexists. split; [vm_compute; reflexivity|].
  split; [reflexivity|]. split; [reflexivity|].
  vm_compute. discriminate.
Qed.

(** ** The title *)

(** The title comes from the first <title> element when there is one,
    else from the first <h1>, else it is "No title found". *)
Lemma extract_title_priority (doc : soup) :
  extract_title doc =
  match List.find (named (py "title")) (descendants doc) with
  | Some t =>
      match string_of t with
      | Some s => VStr s
      | None => VNone
      end
  | None =>
      match List.find (named (py "h1")) (descendants doc) with
      | Some h => VStr (get_text [] h)
      | None => VStr (py "No title found")
      end
  end.
Proof. unfold extract_title. now rewrite !find_first. Qed.

(** Without a <title> element the title is a string. *)
Lemma extract_title_without_title_element (doc : soup) :
  List.find (named (py "title")) (descendants doc) = None ->
  exists s, extract_title doc = VStr s.
Proof.
  intros H. rewrite extract_title_priority, H.
  destruct (List.find (named (py "h1")) (descendants doc)); now eexists.
Qed.

(** C9: the code at the failing input. For a page whose <title> is
    empty the record has the success status and the title [None], not
    a string; the results table then fails to slice it. *)
Theorem empty_title_gives_none :
  exists rec w',
    extract_article Samples.sample_server Samples.sample_clock
      (py "https://example.com/empty") initial_world = (Ret rec, w') /\
    dict_get rec (py "status") = Some (VStr (py "success")) /\
    dict_get rec (py "title") = Some VNone /\
    fst (process_all Samples.sample_server Samples.sample_clock
           Samples.sample_stamp Samples.sample_libs
           (py "https://example.com/empty") initial_world) =
      Raise (Exception (py "TypeError")
               (py "'NoneType' object is not subscriptable")).
Proof.
  do 2 eexists. split; [vm_compute; reflexivity|].
  repeat split; vm_compute; reflexivity.
Qed.

(** ** What the batch tab hands to the export *)

Section BatchExport.

Variable server : list str -> str -> get_outcome.
Variable clock : nat -> str.
Variable stamp : nat -> str.
Variable libs : libraries.

Lemma summary_row_needs_word_count (r row : dict) (w w' : world) :
  summary_row r w = (Ret row, w') -> dict_get r (py "word_count") <> None.
Proof.
  unfold summary_row, bind, getitem, slice_to, ret, raise.
  destruct (dict_get r (py "url")) as [[?| |]|]; try discriminate.
  destruct (dict_get r (py "title")) as [[?| |]|]; try discriminate.
  destruct (dict_get r (py "status")); try discriminate.
  destruct (dict_get r (py "word_count")); [discriminate|discriminate].
Qed.

Lemma summary_rows_need_word_count (results : list dict) :
  forall (rows : list dict) (w w' : world),
  summary_rows results w = (Ret rows, w') ->
  Forall (fun r => dict_get r (py "word_count") <> None) results.
Proof.
  induction results as [|r rs IH]; intros rows w w' H; [constructor|].
  cbn [summary_rows] in H. unfold bind at 1 in H.
  destruct (summary_row r w) as [[row|e] w1] eqn:Hrow; [|discriminate].
  unfold bind at 1 in H.
  destruct (summary_rows rs w1) as [[rows'|e] w2] eqn:Hrows; [|discriminate].
  constructor.
  - exact (summary_row_needs_word_count _ _ _ _ Hrow).
  - exact (IH _ _ _ Hrows).
Qed.

Lemma produced_with_word_count (urls : list str) (recs : list dict) :
  Forall2 (produced_for server clock) urls recs ->
  Forall (fun r => dict_get r (py "word_count") <> None) recs ->
  Forall (fun r => keys r = article_fields) recs.
Proof.
  induction 1 as [|u r us rs Hur Hall IH]; intros Hwc; [constructor|].
  inversion Hwc as [|? ? Hr Hrs]; subst. constructor; [|now apply IH].
  unfold produced_for in Hur. destruct (has_scheme u).
  - destruct Hur as [w0 Hrun].
    destruct (extract_article_returns server clock u w0)
      as (rec' & Hrun' & Hkeys & _).
    congruence.
  - subst r. now elim Hr.
Qed.

(** A batch that reaches the download exports article records only:
    at least one, each with the seven fields in their order. *)
Lemma completed_batch_exports_article_records
    (batch_urls : str) (w w' : world) (results summary : list dict)
    (successful failed : nat) (excel_data : workbook) (file_name : str) :
  process_all server clock stamp libs batch_urls w =
    (Ret (PageDone results successful failed summary excel_data file_name),
     w') ->
  results <> [] /\
  Forall (fun r => keys r = article_fields) results /\
  create_excel_download libs (inr results) (py "Batch_Articles") =
    Some excel_data.
Proof.
  unfold process_all, process_urls. intros H.
  destruct (parse_urls batch_urls) as [|u us] eqn:Hurls.
  - unfold bind, ret in H. discriminate.
  - destruct (20 <? length (u :: us))%nat.
    + unfold bind, ret in H. discriminate.
    + destruct (batch_loop_spec server clock (u :: us) [] w)
        as (recs & w1 & Hloop & Hall & _).
      unfold bind at 1 2 in H. rewrite Hloop in H.
      cbn [app] in H. unfold ret at 1 in H. cbv beta iota in H.
      unfold bind at 1 in H.
      destruct (count_successful recs w1) as [[n|e] w2]; [|discriminate].
      unfold bind at 1 in H.
      destruct (summary_rows recs w2) as [[rows|e] w3] eqn:Hrows;
        [|discriminate].
      unfold bind, export_batch, batch_file_name, ret, raise in H.
      destruct (create_excel_download libs (inr recs) (py "Batch_Articles"))
        as [book|] eqn:Hbook; [|discriminate].
      injection H as <- _ _ _ <- _ _.
      split; [|split; [|exact Hbook]].
      * inversion Hall; discriminate.
      * eapply produced_with_word_count; [exact Hall|].
        exact (summary_rows_need_word_count _ _ _ _ Hrows).
Qed.

End BatchExport.

(** The scenario of two URLs and a trailing blank line: two URLs are
    processed. *)
Example parse_urls_ignores_blank_lines :
  parse_urls (py "https://example.com/article1" ++ [LF] ++
              py "https://example.com/article2" ++ [LF]) =
  [py "https://example.com/article1"; py "https://example.com/article2"].
Proof. reflexivity. Qed.

(** * Further properties of the code *)

(** ** URLs and their domain *)

Section DomainFacts.

Lemma split_on_segment (sep : char) (l rest : str) :
  ~ In sep l -> split_on sep (l ++ sep :: rest) = l :: split_on sep rest.
Proof.
  induction l as [|c l IH]; intros Hl; simpl.
  - now rewrite N.eqb_refl.
  - destruct (N.eqb_spec c sep) as [->|_]; [elim Hl; now left|].
    rewrite IH; [reflexivity|]. intros H. apply Hl. now right.
Qed.

Lemma split_on_whole (sep : char) (l : str) :
  ~ In sep l -> split_on sep l = [l].
Proof.
  induction l as [|c l IH]; intros Hl; simpl; [reflexivity|].
  destruct (N.eqb_spec c sep) as [->|_]; [elim Hl; now left|].
  rewrite IH; [reflexivity|]. intros H. apply Hl. now right.
Qed.

Lemma split_on_before (sep : char) (s : str) :
  exists rest, split_on sep s = before sep s :: rest.
Proof.
  induction s as [|c s [rest IH]]; simpl; [now exists []|].
  destruct (c =? sep)%N; [now eexists|].
  rewrite IH. now eexists.
Qed.

Lemma split_on_free (sep : char) (s : str) :
  Forall (fun seg => ~ In sep seg) (split_on sep s).
Proof.
  induction s as [|c s IH]; simpl.
  - constructor; [intros []|constructor].
  - destruct (N.eqb_spec c sep) as [->|Hne].
    + constructor; [intros []|exact IH].
    + destruct (split_on sep s) as [|l ls]; inversion IH; subst.
      * repeat constructor. intros [H|[]]. congruence.
      * constructor; [|assumption]. intros [H|H]; [congruence|contradiction].
Qed.

Lemma startswith_prefix (s prefix : str) :
  startswith s prefix = true <-> exists rest, s = prefix ++ rest.
Proof.
  revert s. induction prefix as [|p prefix IH]; intros s; simpl.
  - split; [intros _; now exists s|intros _; now destruct s].
  - destruct s as [|c s].
    + split; [discriminate|intros [rest H]; discriminate].
    + simpl. rewrite andb_true_iff, N.eqb_eq, IH. split.
      * intros [-> [rest ->]]. now exists rest.
      * intros [rest [= -> ->]]. split; [reflexivity|now exists rest].
Qed.

(** The domain of [scheme//host...]: the third segment is the host. *)
Lemma domain_of_after_scheme (scheme rest : str) :
  ~ In slash scheme ->
  domain_of (scheme ++ slash :: slash :: rest) = before slash rest.
Proof.
  intros Hs. unfold domain_of.
  rewrite (split_on_segment slash scheme _ Hs).
  change (split_on slash (slash :: rest)) with ([] :: split_on slash rest).
  destruct (split_on_before slash rest) as [more ->]. reflexivity.
Qed.

End DomainFacts.

(** X1. For a URL written scheme://host, scheme://host/path or
    scheme://host/path/more, with no slash in scheme and host, the
    domain is the host, with whatever user name or port it carries. *)
Theorem domain_is_the_host (scheme host path : str) :
  ~ In slash scheme ->
  ~ In slash host ->
  domain_of (scheme ++ py "//" ++ host) = host /\
  domain_of (scheme ++ py "//" ++ host ++ py "/" ++ path) = host.
Proof.
  intros Hs Hh. change (py "//" ++ ?x) with (slash :: slash :: x).
  split.
  - change (scheme ++ py "//" ++ host)
      with (scheme ++ slash :: slash :: host).
    rewrite (domain_of_after_scheme _ _ Hs).
    destruct (split_on_before slash host) as [more Hb].
    rewrite (split_on_whole slash host Hh) in Hb. congruence.
  - change (scheme ++ py "//" ++ host ++ py "/" ++ path)
      with (scheme ++ slash :: slash :: (host ++ slash :: path)).
    rewrite (domain_of_after_scheme _ _ Hs).
    change (host ++ py "/" ++ path) with (host ++ slash :: path).
    destruct (split_on_before slash (host ++ slash :: path)) as [more Hb].
    rewrite (split_on_segment slash host path Hh) in Hb. congruence.
Qed.

Lemma domain_is_the_host_witness :
  ~ In slash (py "https:") /\
  ~ In slash (py "user@example.com:8080") /\
  domain_of (py "https://user@example.com:8080/a/b") =
    py "user@example.com:8080".
Proof.
  assert (Hs : ~ In slash (py "https:"))
    by (intros H; repeat (destruct H as [H|H]; [discriminate|]); exact H).
  assert (Hh : ~ In slash (py "user@example.com:8080"))
    by (intros H; repeat (destruct H as [H|H]; [discriminate|]); exact H).
  split; [exact Hs|]. split; [exact Hh|].
  exact (proj2 (domain_is_the_host (py "https:") (py "user@example.com:8080")
                  (py "a/b") Hs Hh)).
Defined.

(** X2. The domain never contains a slash. *)
Theorem domain_has_no_slash (url : str) : ~ In slash (domain_of url).
Proof.
  unfold domain_of.
  destruct (2 <? length (split_on slash url))%nat.
  - pose proof (split_on_free slash url) as H.
    rewrite Forall_forall in H.
    destruct (nth_in_or_default 2 (split_on slash url) []) as [Hin | ->].
    + now apply H.
    + intros [].
  - intros H. repeat (destruct H as [H|H]; [discriminate|]). exact H.
Qed.

(** X3. A URL passes the scheme check exactly when it starts with
    "http://" or "https://", and then its domain is what stands between
    the scheme and the next slash: never the placeholder "unknown"
    unless that is the host. *)
Theorem checked_url_domain (url : str) :
  has_scheme url = true <->
  exists rest,
    (url = py "http://" ++ rest \/ url = py "https://" ++ rest) /\
    domain_of url = before slash rest.
Proof.
  unfold has_scheme, startswith_any, schemes. cbn [existsb].
  rewrite !orb_true_iff, !startswith_prefix. split.
  - intros [[rest ->]|[[rest ->]|H]]; [| |discriminate]; exists rest.
    + split; [now left|].
      apply (domain_of_after_scheme (py "http:") rest).
      intros H. repeat (destruct H as [H|H]; [discriminate|]). exact H.
    + split; [now right|].
      apply (domain_of_after_scheme (py "https:") rest).
      intros H. repeat (destruct H as [H|H]; [discriminate|]). exact H.
  - intros (rest & [->| ->] & _); [left|right; left]; now exists rest.
Qed.

(** ** The cleaned text and its word count *)

Section TextFacts.

Lemma split_ws_starts_clean (c : char) (s : str) :
  isspace c = false -> split_ws (c :: s) <> [].
Proof.
  intros Hc. simpl. rewrite Hc. destruct s as [|c' s]; [discriminate|].
  destruct (isspace c'); [discriminate|].
  destruct (split_ws (c' :: s)); discriminate.
Qed.

Lemma strip_fixed_starts_clean (l : str) : strip l = l -> starts_clean l.
Proof.
  intros H. rewrite <- H. unfold strip.
  apply rstrip_starts_clean, lstrip_starts_clean.
Qed.

Lemma join_clean_lines_words (ls : list str) :
  Forall clean_line ls -> ls <> [] -> split_ws (join [LF] ls) <> [].
Proof.
  intros H Hne. destruct ls as [|l ls]; [congruence|].
  inversion H as [|? ? (Hl & Hnil & Hs) Hls]; subst.
  pose proof (strip_fixed_starts_clean l Hs) as Hc.
  destruct l as [|c l]; [congruence|].
  destruct ls as [|l' ls']; simpl join; now apply split_ws_starts_clean.
Qed.

(** The cleaned text has no word exactly when it is empty. *)
Lemma normalize_no_words (t : str) :
  length (split_ws (normalize t)) = 0%nat <-> normalize t = [].
Proof.
  split.
  - intros H. unfold normalize in *.
    destruct (clean_lines t) as [|l ls] eqn:E; [reflexivity|].
    exfalso. apply (join_clean_lines_words (l :: ls)).
    + rewrite <- E. apply clean_lines_clean.
    + discriminate.
    + now apply length_zero_iff_nil.
  - intros ->. reflexivity.
Qed.

Lemma filter_strip_clean (strs : list str) :
  Forall one_line strs ->
  Forall clean_line (filter truthy (map strip strs)).
Proof.
  induction 1 as [|s strs Hs Hstrs IH]; simpl; [constructor|].
  destruct (truthy (strip s)) eqn:E; [|exact IH].
  constructor; [|exact IH]. repeat split.
  - now apply strip_Forall.
  - now apply truthy_true.
  - apply strip_idem.
Qed.

End TextFacts.

(** X4. A success record counts no word exactly when its text is
    empty. *)
Theorem no_words_means_no_text (server : list str -> str -> get_outcome)
    (clock : nat -> str) (url : str) (w : world) (page : soup) :
  fetched_page server w url = Some page ->
  exists rec w' text n,
    extract_article server clock url w = (Ret rec, w') /\
    dict_get rec (py "text") = Some (VStr text) /\
    dict_get rec (py "word_count") = Some (VInt n) /\
    (n = 0%Z <-> text = []).
Proof.
  intros Hp. rewrite (extract_article_fetched server clock _ _ _ Hp).
  do 4 eexists. split; [reflexivity|]. split; [reflexivity|].
  split; [reflexivity|].
  rewrite <- normalize_no_words. lia.
Qed.

Lemma no_words_means_no_text_witness :
  fetched_page Samples.sample_server initial_world
    (py "https://www.example.com/path") = Some Samples.article_page /\
  exists rec w' text n,
    extract_article Samples.sample_server Samples.sample_clock
      (py "https://www.example.com/path") initial_world = (Ret rec, w') /\
    dict_get rec (py "text") = Some (VStr text) /\
    dict_get rec (py "word_count") = Some (VInt n) /\
    (n = 0%Z <-> text = []).
Proof.
  split; [reflexivity|].
  exact (no_words_means_no_text Samples.sample_server Samples.sample_clock
           (py "https://www.example.com/path") initial_world
           Samples.article_page eq_refl).
Defined.

(** X5. When no text node of the selected elements holds a line
    boundary, the clean-up of lines 77-78 changes nothing in what
    [get_text(separator='\n', strip=True)] returned: the stripped text
    nodes are the lines of the record's text. *)
Theorem clean_up_keeps_text_nodes (l : list node) :
  Forall one_line (flat_map strings_of l) ->
  normalize (text_of [LF] l) = text_of [LF] l /\
  clean_lines (text_of [LF] l) =
    filter truthy (map strip (flat_map strings_of l)).
Proof.
  intros H. pose proof (filter_strip_clean _ H) as Hc.
  unfold normalize, text_of. now rewrite (clean_lines_join _ Hc).
Qed.

Lemma clean_up_keeps_text_nodes_witness :
  Forall one_line (flat_map strings_of Samples.article_page) /\
  normalize (text_of [LF] Samples.article_page) =
    text_of [LF] Samples.article_page.
Proof.
  assert (H : Forall one_line (flat_map strings_of Samples.article_page))
    by (repeat constructor).
  split; [exact H|].
  exact (proj1 (clean_up_keeps_text_nodes Samples.article_page H)).
Defined.

(** ** Removing the unwanted elements *)

Section DecomposeFacts.

Variable names : list str.

Lemma Forall_flat_map {A B} (P : B -> Prop) (f : A -> list B) (l : list A) :
  Forall (fun a => Forall P (f a)) l -> Forall P (flat_map f l).
Proof.
  induction 1 as [|a l Ha Hl IH]; simpl; [constructor|].
  apply Forall_app. now split.
Qed.

Lemma flat_map_flat_map {A B C} (f : A -> list B) (g : B -> list C)
    (l : list A) :
  flat_map g (flat_map f l) = flat_map (fun a => flat_map g (f a)) l.
Proof.
  induction l as [|a l IH]; simpl; [reflexivity|].
  now rewrite flat_map_app, IH.
Qed.

(** No element with a listed name is left at or below what remains of
    an element. *)
Lemma decompose_clears (n : node) :
  Forall (fun m => tag_among names m = false)
    (flat_map self_and_descendants (decompose names n)).
Proof.
  induction n as [s|s|nm cls ch IH] using node_tree_ind.
  - repeat constructor.
  - repeat constructor.
  - cbn [decompose]. destruct (existsb (str_eqb nm) names) eqn:E;
      [constructor|].
    cbn [flat_map self_and_descendants]. rewrite app_nil_r.
    constructor; [exact E|].
    rewrite flat_map_flat_map. now apply Forall_flat_map.
Qed.

(** What remains of an element holds nothing more to remove. *)
Lemma decompose_twice (n : node) :
  flat_map (decompose names) (decompose names n) = decompose names n.
Proof.
  induction n as [s|s|nm cls ch IH] using node_tree_ind;
    try reflexivity.
  cbn [decompose]. destruct (existsb (str_eqb nm) names) eqn:E;
    [reflexivity|].
  cbn [flat_map decompose]. rewrite E, app_nil_r. do 2 f_equal.
  rewrite flat_map_flat_map.
  induction IH as [|c ch' Hc Hch IHch]; [reflexivity|].
  cbn [flat_map]. now rewrite Hc, IHch.
Qed.

Lemma combine_append {A B} (l1 l2 : list A) (r1 r2 : list B) :
  length l1 = length r1 ->
  combine (l1 ++ l2) (r1 ++ r2) = combine l1 r1 ++ combine l2 r2.
Proof.
  revert r1. induction l1 as [|a l1 IH]; intros [|b r1] H;
    simpl in *; try discriminate; [reflexivity|].
  f_equal. apply IH. now injection H.
Qed.

(** The text nodes left are text nodes of the original, in their
    order. *)
Lemma decompose_strings (n : node) :
  exists keep : list bool,
    length keep = length (strings_of n) /\
    flat_map strings_of (decompose names n) =
    map snd (filter fst (combine keep (strings_of n))).
Proof.
  induction n as [s|s|nm cls ch IH] using node_tree_ind.
  - now exists [true].
  - now exists [].
  - cbn [decompose strings_of].
    destruct (existsb (str_eqb nm) names).
    + exists (repeat false (length (flat_map strings_of ch))).
      split; [apply repeat_length|].
      induction (flat_map strings_of ch) as [|s l IHl]; [reflexivity|].
      exact IHl.
    + cbn [flat_map strings_of]. rewrite app_nil_r.
      induction IH as [|c ch' (keep & Hlen & Hc) Hch (keeps & Hlens & IHch)].
      * now exists [].
      * exists (keep ++ keeps). cbn [flat_map].
        rewrite !length_app, Hlen, Hlens. split; [reflexivity|].
        rewrite flat_map_app, Hc, IHch.
        rewrite combine_append by exact Hlen.
        now rewrite filter_app, map_app.
Qed.

End DecomposeFacts.

(** X6. After line 57-58 no <script>, <style>, <nav>, <footer>,
    <header>, <aside> or <advertisement> is left anywhere in the
    document, whatever surrounded it, and removing them once more would
    change nothing. *)
Theorem unwanted_elements_are_gone (names : list str) (doc : soup) :
  Forall (fun n => tag_among names n = false)
    (descendants (decompose_all names doc)) /\
  decompose_all names (decompose_all names doc) = decompose_all names doc.
Proof.
  unfold decompose_all, descendants. split.
  - rewrite flat_map_flat_map. apply Forall_flat_map, Forall_forall.
    intros n _. apply decompose_clears.
  - rewrite flat_map_flat_map. apply flat_map_ext. intros n.
    apply decompose_twice.
Qed.

(** X7. Removing elements only removes text: the text nodes of the
    remaining document are text nodes of the page, in the order of the
    page. *)
Theorem removal_only_drops_text (names : list str) (doc : soup) :
  exists keep : list bool,
    length keep = length (flat_map strings_of doc) /\
    flat_map strings_of (decompose_all names doc) =
    map snd (filter fst (combine keep (flat_map strings_of doc))).
Proof.
  unfold decompose_all. induction doc as [|n doc (keeps & Hlens & IH)].
  - now exists [].
  - destruct (decompose_strings names n) as (keep & Hlen & Hn).
    exists (keep ++ keeps). cbn [flat_map].
    rewrite !length_app, Hlen, Hlens. split; [reflexivity|].
    rewrite flat_map_app, Hn, IH.
    rewrite combine_append by exact Hlen.
    now rewrite filter_app, map_app.
Qed.

(** ** The title and the effects of one extraction *)

(** X8. On the success path the title comes from the first <title>
    element left in the document, in document order, when there is one:
    its single string, or [None] when it has no single string; else it
    is the text of the first <h1> left; else "No title found". An <h1>
    is not consulted when a <title> exists. *)
Theorem title_resolution_order (server : list str -> str -> get_outcome)
    (clock : nat -> str) (url : str) (w : world) (page : soup) :
  fetched_page server w url = Some page ->
  exists rec w',
    extract_article server clock url w = (Ret rec, w') /\
    dict_get rec (py "title") =
    Some (match List.find (named (py "title"))
                  (descendants (decompose_all unwanted page)) with
          | Some t =>
              match string_of t with
              | Some s => VStr s
              | None => VNone
              end
          | None =>
              match List.find (named (py "h1"))
                      (descendants (decompose_all unwanted page)) with
              | Some h => VStr (get_text [] h)
              | None => VStr (py "No title found")
              end
          end).
Proof.
  intros Hp. rewrite (extract_article_fetched server clock _ _ _ Hp).
  do 2 eexists. split; [reflexivity|].
  rewrite <- extract_title_priority. reflexivity.
Qed.

Lemma title_resolution_order_witness :
  fetched_page Samples.sample_server initial_world
    (py "https://www.example.com/path") = Some Samples.article_page /\
  exists rec w',
    extract_article Samples.sample_server Samples.sample_clock
      (py "https://www.example.com/path") initial_world = (Ret rec, w') /\
    dict_get rec (py "title") = Some (VStr (py "News")).
Proof.
  split; [reflexivity|].
  destruct (title_resolution_order Samples.sample_server Samples.sample_clock
              (py "https://www.example.com/path") initial_world
              Samples.article_page eq_refl) as (rec & w' & Hrun & Ht).
  exists rec, w'. split; [exact Hrun | exact Ht].
Defined.

(** X9. One call of [extract_article] makes exactly one request, for
    the URL it was given, whether the request succeeds or not; it reads
    the clock once, never pauses, and hands the URL back unchanged in
    the record. *)
Theorem extract_article_effects (server : list str -> str -> get_outcome)
    (clock : nat -> str) (url : str) (w : world) :
  exists rec w',
    extract_article server clock url w = (Ret rec, w') /\
    requested w' = requested w ++ [url] /\
    clock_reads w' = S (clock_reads w) /\
    sleeps w' = sleeps w /\
    dict_get rec (py "url") = Some (VStr url) /\
    dict_get rec (py "date_extracted") = Some (VStr (clock (clock_reads w))).
Proof.
  destruct (extract_article_counts server clock url w)
    as (rec & n & Hrun & _ & _ & _ & Hdate).
  destruct (extract_article_returns server clock url w)
    as (rec' & Hrun' & _ & Hurl).
  assert (rec' = rec) by congruence. subst rec'.
  exists rec, (after_extract url w). repeat split; assumption.
Qed.

(** ** The effects and the composition of the batch loop *)

Section LoopFacts.

Variable server : list str -> str -> get_outcome.
Variable clock : nat -> str.

Lemma bind_assoc {A B C} (m : M A) (f : A -> M B) (g : B -> M C) (w : world) :
  bind (bind m f) g w = bind m (fun a => bind (f a) g) w.
Proof. unfold bind. now destruct (m w) as [[a|e] w']. Qed.

Lemma batch_loop_clock_and_sleeps (urls : list str) :
  forall (results : list dict) (w : world),
  exists out w',
    batch_loop server clock urls results w = (Ret out, w') /\
    clock_reads w' =
      (clock_reads w + length (filter has_scheme urls))%nat /\
    sleeps w' = (sleeps w + length (filter has_scheme urls))%nat.
Proof.
  induction urls as [|url urls IH]; intros results w.
  - exists results, w. cbn. unfold ret. repeat split; lia.
  - cbn [batch_loop filter]. fold (has_scheme url).
    destruct (has_scheme url) eqn:Hs; cbn [negb].
    + destruct (extract_article_returns server clock url w)
        as (rec & Hrun & _).
      unfold bind at 1. rewrite Hrun.
      unfold bind at 1, sleep at 1.
      destruct (IH (results ++ [rec])
                  (World (requested (after_extract url w))
                     (clock_reads (after_extract url w))
                     (S (sleeps (after_extract url w)))))
        as (out & w' & Hloop & Hclock & Hsleeps).
      exists out, w'. split; [exact Hloop|].
      cbn [clock_reads sleeps after_extract length] in *. lia.
    + destruct (IH (results ++ [invalid_url_record url]) w)
        as (out & w' & Hloop & Hclock & Hsleeps).
      exists out, w'. split; [exact Hloop|]. split; assumption.
Qed.

Lemma batch_loop_append (urls more : list str) :
  forall (results : list dict) (w : world),
  batch_loop server clock (urls ++ more) results w =
  bind (batch_loop server clock urls results)
       (fun out => batch_loop server clock more out) w.
Proof.
  induction urls as [|url urls IH]; intros results w; [reflexivity|].
  cbn [app batch_loop]. destruct (negb (startswith_any url schemes)).
  - apply IH.
  - unfold bind in *.
    destruct (extract_article server clock url w) as [[rec|e] w1];
      [|reflexivity].
    unfold sleep. apply IH.
Qed.

(** The records appended do not depend on the records already there. *)
Lemma batch_loop_accumulates (urls : list str) :
  forall (results : list dict) (w : world),
  batch_loop server clock urls results w =
  match batch_loop server clock urls [] w with
  | (Ret recs, w') => (Ret (results ++ recs), w')
  | (Raise e, w') => (Raise e, w')
  end.
Proof.
  induction urls as [|url urls IH]; intros results w.
  - cbn. unfold ret. now rewrite app_nil_r.
  - cbn [batch_loop app]. destruct (negb (startswith_any url schemes)).
    + rewrite (IH (results ++ _)), (IH [_]).
      destruct (batch_loop server clock urls [] w) as [[recs|e] w'];
        [|reflexivity].
      now rewrite <- app_assoc.
    + unfold bind.
      destruct (extract_article server clock url w) as [[rec|e] w1];
        [|reflexivity].
      unfold sleep. rewrite (IH (results ++ _)), (IH [_]).
      destruct (batch_loop server clock urls [] _) as [[recs|e] w'];
        [|reflexivity].
      now rewrite <- app_assoc.
Qed.

End LoopFacts.

(** X10. The batch loop reads the clock once and pauses once for every
    URL that has a scheme, and not at all for the others: after the
    loop both counters have grown by the number of URLs with a scheme. *)
Theorem batch_loop_pauses_per_request
    (server : list str -> str -> get_outcome) (clock : nat -> str)
    (urls : list str) (w : world) :
  exists results w',
    batch_loop server clock urls [] w = (Ret results, w') /\
    clock_reads w' = (clock_reads w + length (filter has_scheme urls))%nat /\
    sleeps w' = (sleeps w + length (filter has_scheme urls))%nat /\
    length (requested w') =
      (length (requested w) + length (filter has_scheme urls))%nat.
Proof.
  destruct (batch_loop_clock_and_sleeps server clock urls [] w)
    as (out & w' & Hloop & Hclock & Hsleeps).
  destruct (batch_loop_spec server clock urls [] w)
    as (recs & w'' & Hloop' & _ & Hreq).
  assert (w'' = w') by congruence. subst w''.
  exists out, w'. repeat split; try assumption.
  now rewrite Hreq, length_app.
Qed.

(** X11. Processing a list of URLs in one run is processing its first
    part and then the rest, with the records and the world the first
    part left: the records of the whole are those of the first part
    followed by those of the rest. *)
Theorem batch_loop_in_two_parts
    (server : list str -> str -> get_outcome) (clock : nat -> str)
    (urls more : list str) (w : world) :
  exists first w1 rest w2,
    batch_loop server clock urls [] w = (Ret first, w1) /\
    batch_loop server clock more [] w1 = (Ret rest, w2) /\
    batch_loop server clock (urls ++ more) [] w = (Ret (first ++ rest), w2) /\
    length first = length urls /\
    length rest = length more.
Proof.
  destruct (batch_loop_spec server clock urls [] w)
    as (first & w1 & H1 & Hall1 & _).
  destruct (batch_loop_spec server clock more [] w1)
    as (rest & w2 & H2 & Hall2 & _).
  exists first, w1, rest, w2. cbn [app] in H1, H2.
  split; [exact H1|]. split; [exact H2|].
  split; [|split; symmetry; eapply Forall2_length; eassumption].
  rewrite batch_loop_append. unfold bind. rewrite H1.
  now rewrite batch_loop_accumulates, H2.
Qed.

(** ** Reading the URLs of the text area *)

Section ParseFacts.

Lemma not_in_Forall (c : char) (s : str) :
  ~ In c s <-> Forall (fun x => x <> c) s.
Proof.
  rewrite Forall_forall. split.
  - intros H x Hx ->. now apply H.
  - intros H Hc. now apply (H c Hc).
Qed.

Lemma strip_free (c : char) (s : str) : ~ In c s -> ~ In c (strip s).
Proof. rewrite !not_in_Forall. apply strip_Forall. Qed.

Lemma split_on_join (sep : char) (parts : list str) :
  parts <> [] ->
  Forall (fun p => ~ In sep p) parts ->
  split_on sep (join [sep] parts) = parts.
Proof.
  intros Hne H. revert Hne.
  induction H as [|p ps Hp Hps IH]; intros Hne; [now elim Hne|].
  destruct ps as [|p' ps'].
  - now apply split_on_whole.
  - change (join [sep] (p :: p' :: ps'))
      with (p ++ sep :: join [sep] (p' :: ps')).
    rewrite split_on_segment by exact Hp.
    rewrite IH; [reflexivity|discriminate].
Qed.

Lemma entered_urls_kept (urls : list str) :
  Forall entered_url urls ->
  map strip (filter (fun url => truthy (strip url)) urls) = urls.
Proof.
  induction 1 as [|u urls (Hne & Hs & _) Hurls IH]; [reflexivity|].
  simpl. rewrite Hs. destruct u; [congruence|].
  simpl. now rewrite Hs, IH.
Qed.

End ParseFacts.

(** X12. Every URL read from the text area is non-empty, has no
    whitespace at either end and no newline inside: blank and
    whitespace-only lines never become URLs. *)
Theorem parsed_urls_are_entered (batch_urls : str) :
  Forall entered_url (parse_urls batch_urls).
Proof.
  unfold parse_urls.
  pose proof (split_on_free LF batch_urls) as H.
  induction H as [|l ls Hl Hls IH]; simpl; [constructor|].
  destruct (truthy (strip l)) eqn:E; [|exact IH].
  simpl. constructor; [|exact IH].
  repeat split.
  - now apply truthy_true.
  - apply strip_idem.
  - now apply strip_free.
Qed.

(** X13. URLs written one per line are read back as they were
    written, in the same order, when each one is non-empty, without
    surrounding whitespace and without a newline. *)
Theorem parse_urls_of_lines (urls : list str) :
  Forall entered_url urls ->
  parse_urls (join [LF] urls) = urls.
Proof.
  intros H. unfold parse_urls. destruct urls as [|u us]; [reflexivity|].
  rewrite split_on_join.
  - now apply entered_urls_kept.
  - discriminate.
  - eapply Forall_impl; [|exact H]. now intros l (_ & _ & Hl).
Qed.

Lemma parse_urls_of_lines_witness :
  Forall entered_url [py "https://example.com/a"; py "example.com"] /\
  parse_urls (join [LF] [py "https://example.com/a"; py "example.com"]) =
    [py "https://example.com/a"; py "example.com"].
Proof.
  assert (H : Forall entered_url
                [py "https://example.com/a"; py "example.com"]).
  { repeat constructor; try discriminate;
      intros H; repeat (destruct H as [H|H]; [discriminate|]); exact H. }
  split; [exact H|].
  exact (parse_urls_of_lines _ H).
Defined.

(** ** The tally and the results table *)

Section TableFacts.

Variable server : list str -> str -> get_outcome.
Variable clock : nat -> str.

Lemma count_successful_counts (results : list dict) (w : world) :
  Forall (fun r => exists s, dict_get r (py "status") = Some (VStr s)) results ->
  count_successful results w = (Ret (successes results), w).
Proof.
  induction 1 as [|r rs [s Hs] Hrs IH]; [reflexivity|].
  cbn [count_successful]. unfold bind, getitem. rewrite Hs. unfold ret at 1.
  rewrite IH. unfold ret, successes. cbn [filter]. rewrite Hs.
  now destruct (str_eqb s (py "success")).
Qed.

Lemma summary_row_of_tabulable (r : dict) (w : world) :
  tabulable r -> exists row, summary_row r w = (Ret row, w).
Proof.
  intros ([u Hu] & [t Ht] & [s Hs] & [n Hn]).
  unfold summary_row, bind, getitem, slice_to, ret.
  rewrite Hu, Ht, Hs, Hn. now eexists.
Qed.

Lemma summary_rows_of_tabulable (results : list dict) (w : world) :
  Forall tabulable results ->
  exists rows,
    summary_rows results w = (Ret rows, w) /\ length rows = length results.
Proof.
  induction 1 as [|r rs Hr Hrs (rows & IH & Hlen)].
  - now exists [].
  - destruct (summary_row_of_tabulable r w Hr) as [row Hrow].
    exists (row :: rows). cbn [summary_rows]. unfold bind.
    rewrite Hrow, IH. unfold ret. split; [reflexivity|].
    simpl. now rewrite Hlen.
Qed.

(** The results table changes nothing in the world, and what it raises
    is a KeyError or a TypeError. *)
Lemma summary_row_outcome (r : dict) (w : world) :
  exists res,
    summary_row r w = (res, w) /\
    match res with
    | Ret _ => True
    | Raise e => exn_class e = py "KeyError" \/ exn_class e = py "TypeError"
    end.
Proof.
  unfold summary_row, bind, getitem, slice_to, ret, raise.
  destruct (dict_get r (py "url")) as [[?| |]|];
    try (eexists; split; [reflexivity|]; simpl; auto; fail).
  destruct (dict_get r (py "title")) as [[?| |]|];
    try (eexists; split; [reflexivity|]; simpl; auto; fail).
  destruct (dict_get r (py "status"));
    try (eexists; split; [reflexivity|]; simpl; auto; fail).
  destruct (dict_get r (py "word_count"));
    eexists; (split; [reflexivity|]); simpl; auto.
Qed.

Lemma summary_rows_outcome (results : list dict) (w : world) :
  exists res,
    summary_rows results w = (res, w) /\
    match res with
    | Ret _ => True
    | Raise e => exn_class e = py "KeyError" \/ exn_class e = py "TypeError"
    end.
Proof.
  induction results as [|r rs (res & IH & Hres)].
  - now exists (Ret []).
  - destruct (summary_row_outcome r w) as (res1 & Hrow & Hres1).
    cbn [summary_rows]. unfold bind. rewrite Hrow.
    destruct res1 as [row|e].
    + rewrite IH. destruct res as [rows|e]; eexists;
        (split; [reflexivity|]); [exact I | exact Hres].
    + eexists. split; [reflexivity | exact Hres1].
Qed.

Lemma produced_has_status (url : str) (rec : dict) :
  produced_for server clock url rec ->
  exists s, dict_get rec (py "status") = Some (VStr s).
Proof.
  unfold produced_for. destruct (has_scheme url).
  - intros [w0 Hrun].
    destruct (fetch_error_or_page server url w0) as [[e He]|[page Hp]].
    + rewrite (extract_article_failed server clock _ _ _ He) in Hrun.
      injection Hrun as <-. now eexists.
    + rewrite (extract_article_fetched server clock _ _ _ Hp) in Hrun.
      injection Hrun as <-. now eexists.
  - intros ->. now eexists.
Qed.

Lemma produced_tabulable (url : str) (rec : dict) :
  titles_are_strings server ->
  has_scheme url = true ->
  produced_for server clock url rec ->
  tabulable rec.
Proof.
  intros Htitles Hs. unfold produced_for. rewrite Hs. intros [w0 Hrun].
  destruct (fetch_error_or_page server url w0) as [[e He]|[page Hp]].
  - rewrite (extract_article_failed server clock _ _ _ He) in Hrun.
    injection Hrun as <-. repeat split; now eexists.
  - rewrite (extract_article_fetched server clock _ _ _ Hp) in Hrun.
    injection Hrun as <-.
    assert (Ht : exists s,
               extract_title (decompose_all unwanted page) = VStr s).
    { unfold fetched_page in Hp.
      destruct (server (requested w0) url) as [e|r] eqn:Hr; [discriminate|].
      destruct (status_error r) eqn:Hst; [discriminate|].
      destruct (content r) as [e|doc] eqn:Hdoc; [discriminate|].
      injection Hp as <-. exact (Htitles _ _ _ _ Hr Hst Hdoc). }
    destruct Ht as [s Ht].
    repeat split; try (now eexists).
    exists s. cbn. now rewrite Ht.
Qed.

Lemma Forall2_In_l {A B} (R : A -> B -> Prop) (l : list A) (l' : list B) (a : A) :
  Forall2 R l l' -> In a l -> exists b, In b l' /\ R a b.
Proof.
  induction 1 as [|a0 b0 l l' Hab Hll IH]; intros Hin; [destruct Hin|].
  destruct Hin as [->|Hin].
  - exists b0. split; [now left | exact Hab].
  - destruct (IH Hin) as (b & Hb & HR). exists b. split; [now right|exact HR].
Qed.

End TableFacts.

(** X14. A batch of up to 20 URLs in which some URL has no scheme
    never reaches its results table or its download: after all the
    requests are made, building the table raises a KeyError (or a
    TypeError when a record with a title that is no string comes
    first). *)
Theorem batch_with_invalid_url_fails
    (server : list str -> str -> get_outcome) (clock : nat -> str)
    (stamp : nat -> str) (libs : libraries)
    (batch_urls : str) (w : world) (u : str) :
  In u (parse_urls batch_urls) ->
  has_scheme u = false ->
  (length (parse_urls batch_urls) <= 20)%nat ->
  exists e w',
    process_all server clock stamp libs batch_urls w = (Raise e, w') /\
    (exn_class e = py "KeyError" \/ exn_class e = py "TypeError") /\
    requested w' =
      requested w ++ filter has_scheme (parse_urls batch_urls).
Proof.
  intros Hin Hs Hlen. unfold process_all, process_urls.
  destruct (parse_urls batch_urls) as [|u0 us] eqn:Hurls; [destruct Hin|].
  destruct (Nat.ltb_spec 20 (length (u0 :: us))); [lia|].
  destruct (batch_loop_spec server clock (u0 :: us) [] w)
    as (recs & w1 & Hloop & Hall & Hreq).
  cbn [app] in Hloop. unfold bind at 1 2. rewrite Hloop.
  unfold ret at 1. cbv beta iota.
  assert (Hstatus : Forall (fun r => exists s,
                              dict_get r (py "status") = Some (VStr s)) recs).
  { clear - Hall. induction Hall as [|x r xs rs Hxr Hrest IH]; constructor.
    - exact (produced_has_status server clock x r Hxr).
    - exact IH. }
  unfold bind at 1. rewrite (count_successful_counts recs w1 Hstatus).
  unfold bind at 1.
  destruct (summary_rows_outcome recs w1) as (res & Hrows & Hres).
  rewrite Hrows. destruct res as [rows|e].
  - exfalso.
    pose proof (summary_rows_need_word_count recs rows w1 w1 Hrows) as Hwc.
    destruct (Forall2_In_l _ _ _ u Hall Hin) as (r & Hr & Hp).
    unfold produced_for in Hp. rewrite Hs in Hp. subst r.
    rewrite Forall_forall in Hwc. now apply (Hwc _ Hr).
  - exists e, w1. split; [reflexivity|]. split; [exact Hres | exact Hreq].
Qed.

Lemma batch_with_invalid_url_fails_witness :
  In (py "example.com") (parse_urls (py "https://example.com" ++ [LF] ++
                                     py "example.com")) /\
  has_scheme (py "example.com") = false /\
  exists e w',
    process_all Samples.sample_server Samples.sample_clock
      Samples.sample_stamp Samples.sample_libs
      (py "https://example.com" ++ [LF] ++ py "example.com")
      initial_world = (Raise e, w') /\
    requested w' = [py "https://example.com"].
Proof.
  assert (Hin : In (py "example.com")
                  (parse_urls (py "https://example.com" ++ [LF] ++
                               py "example.com")))
    by (right; left; reflexivity).
  split; [exact Hin|]. split; [reflexivity|].
  destruct (batch_with_invalid_url_fails Samples.sample_server
              Samples.sample_clock Samples.sample_stamp Samples.sample_libs
              (py "https://example.com" ++ [LF] ++ py "example.com")
              initial_world (py "example.com") Hin eq_refl)
    as (e & w' & Hrun & _ & Hreq).
  - vm_compute. repeat constructor.
  - exists e, w'. split; [exact Hrun | exact Hreq].
Defined.

(** X15. In a batch of 1 to 20 URLs that all have a scheme, when every
    page delivered has a string for title, the loop, the tally and the
    results table go through whether the requests succeed or fail: one
    record with the seven fields and one table row per URL. The run
    then ends with the download (the tally counting the records with
    status "success" and the rest as failed, the file named after one
    more reading of the clock) when the export returns a workbook, and
    with the exception of the export otherwise. *)
Theorem batch_of_checked_urls_completes
    (server : list str -> str -> get_outcome) (clock : nat -> str)
    (stamp : nat -> str) (libs : libraries)
    (batch_urls : str) (w : world) :
  titles_are_strings server ->
  parse_urls batch_urls <> [] ->
  (length (parse_urls batch_urls) <= 20)%nat ->
  Forall (fun u => has_scheme u = true) (parse_urls batch_urls) ->
  exists results summary w1,
    process_urls server clock (parse_urls batch_urls) w =
      (Ret (Results results), w1) /\
    summary_rows results w1 = (Ret summary, w1) /\
    length results = length (parse_urls batch_urls) /\
    length summary = length results /\
    (successes results <= length results)%nat /\
    Forall (fun r => keys r = article_fields) results /\
    process_all server clock stamp libs batch_urls w =
      match create_excel_download libs (inr results) (py "Batch_Articles") with
      | Some book =>
          (Ret (PageDone results (successes results)
                  (length results - successes results) summary book
                  (py "Batch_Articles_" ++ stamp (clock_reads w1)
                   ++ py ".xlsx")),
           World (requested w1) (S (clock_reads w1)) (sleeps w1))
      | None => (Raise (export_error libs results), w1)
      end.
Proof.
  intros Htitles Hne Hlen Hschemes. unfold process_all, process_urls.
  destruct (parse_urls batch_urls) as [|u0 us] eqn:Hurls; [congruence|].
  destruct (Nat.ltb_spec 20 (length (u0 :: us))); [lia|].
  destruct (batch_loop_spec server clock (u0 :: us) [] w)
    as (recs & w1 & Hloop & Hall & Hreq).
  cbn [app] in Hloop. unfold bind at 1 2 3. rewrite Hloop.
  unfold ret at 1 2. cbv beta iota.
  assert (Htab : Forall tabulable recs).
  { clear - Hall Hschemes Htitles.
    induction Hall as [|x r xs rs Hxr Hrest IH]; constructor;
      inversion Hschemes; subst.
    - now apply (produced_tabulable server clock x r).
    - now apply IH. }
  assert (Hstatus : Forall (fun r => exists s,
                              dict_get r (py "status") = Some (VStr s)) recs).
  { eapply Forall_impl; [|exact Htab]. now intros r (_ & _ & Hs & _). }
  destruct (summary_rows_of_tabulable recs w1 Htab) as (rows & Hrows & Hlenr).
  exists recs, rows, w1. split; [reflexivity|]. split; [exact Hrows|].
  split; [symmetry; exact (Forall2_length Hall)|].
  split; [exact Hlenr|]. split; [apply filter_length_le|].
  split.
  - eapply produced_with_word_count; [exact Hall|].
    eapply Forall_impl; [|exact Htab].
    intros r (_ & _ & _ & [n Hn]). congruence.
  - unfold bind at 1. rewrite (count_successful_counts recs w1 Hstatus).
    unfold bind at 1. rewrite Hrows.
    unfold bind, export_batch, batch_file_name, ret, raise.
    now destruct (create_excel_download libs (inr recs) (py "Batch_Articles")).
Qed.

Lemma one_page_server_titles : titles_are_strings one_page_server.
Proof.
  intros history url r doc. unfold one_page_server.
  destruct (str_eqb url _); [|discriminate].
  intros [= <-] _ [= <-]. now eexists.
Qed.

Lemma batch_of_checked_urls_completes_witness :
  titles_are_strings one_page_server /\
  exists results summary book w',
    process_all one_page_server Samples.sample_clock Samples.sample_stamp
      Samples.sample_libs
      (py "https://www.example.com/path" ++ [LF] ++ py "http://nowhere")
      initial_world =
      (Ret (PageDone results 1 1 summary book
              (py "Batch_Articles_20240101_0000.xlsx")), w') /\
    length results = 2%nat.
Proof.
  split; [exact one_page_server_titles|].
  destruct (batch_of_checked_urls_completes one_page_server
              Samples.sample_clock Samples.sample_stamp Samples.sample_libs
              (py "https://www.example.com/path" ++ [LF] ++ py "http://nowhere")
              initial_world one_page_server_titles)
    as (results & summary & w1 & Hloop & _ & Hlen & _ & _ & _ & Hrun).
  - vm_compute. discriminate.
  - vm_compute. repeat constructor.
  - vm_compute. repeat constructor.
  - vm_compute in Hloop. injection Hloop as <- <-.
    vm_compute in Hrun. do 4 eexists. split; [exact Hrun | reflexivity].
Defined.

(** X16. A row of the results table shows the first 50 characters of
    the URL followed by "...", also when the URL is shorter, and the
    first 40 characters of the title; the status and the word count go
    in as they are, and the world is left alone. *)
Theorem summary_row_truncates (r : dict) (w : world)
    (url title : str) (status words : value) :
  dict_get r (py "url") = Some (VStr url) ->
  dict_get r (py "title") = Some (VStr title) ->
  dict_get r (py "status") = Some status ->
  dict_get r (py "word_count") = Some words ->
  exists url_cell title_cell,
    summary_row r w =
      (Ret [(py "URL", VStr url_cell); (py "Title", VStr title_cell);
            (py "Status", status); (py "Words", words)], w) /\
    url_cell = firstn 50 url ++ py "..." /\
    (length url_cell <= 53)%nat /\
    ((length url <= 50)%nat -> url_cell = url ++ py "...") /\
    title_cell = firstn 40 title /\
    (length title_cell <= 40)%nat /\
    ((length title <= 40)%nat -> title_cell = title).
Proof.
  intros Hu Ht Hs Hn. do 2 eexists. split.
  - unfold summary_row, bind, getitem, slice_to, ret.
    rewrite Hu, Ht, Hs, Hn. reflexivity.
  - split; [reflexivity|]. split; [|split; [|split; [reflexivity|split]]].
    + rewrite length_app, length_firstn.
      change (length (py "...")) with 3%nat. lia.
    + intros H. now rewrite firstn_all2.
    + rewrite length_firstn. lia.
    + intros H. now rewrite firstn_all2.
Qed.

Lemma summary_row_truncates_witness :
  exists url_cell title_cell,
    summary_row Samples.missing_record initial_world =
      (Ret [(py "URL", VStr url_cell); (py "Title", VStr title_cell);
            (py "Status", VStr (py "failed: 404 Client Error"));
            (py "Words", VInt 0)], initial_world) /\
    url_cell = py "https://example.com/missing..." /\
    title_cell = py "Error".
Proof.
  destruct (summary_row_truncates Samples.missing_record initial_world
              (py "https://example.com/missing") (py "Error")
              (VStr (py "failed: 404 Client Error")) (VInt 0)
              eq_refl eq_refl eq_refl eq_refl)
    as (url_cell & title_cell & Hrow & Hu & _ & _ & Ht & _).
  exists url_cell, title_cell. split; [exact Hrow|].
  split; [rewrite Hu | rewrite Ht]; reflexivity.
Defined.

(** ** The sheet for any records *)

Section SheetFacts.





Lemma nth_error_enumerate_from {A} (l : list A) (k i : nat) (a : A) :
  nth_error l i = Some a ->
  nth_error (enumerate_from k l) i = Some ((k + i)%nat, a).
Proof.
  revert k i. induction l as [|x l IH]; intros k [|i] H; simpl in *;
    try discriminate.
  - injection H as <-. now rewrite Nat.add_0_r.
  - rewrite (IH (S k) i H). f_equal. f_equal. lia.
Qed.


Variable libs : libraries.

Lemma all_some_nth {A} (l : list (option A)) (r : list A) :
  all_some l = Some r ->
  length r = length l /\
  forall i x, nth_error l i = Some x ->
              exists a, x = Some a /\ nth_error r i = Some a.
Proof.
  revert r. induction l as [|[a|] l IH]; intros r H; simpl in H.
  - injection H as <-. split; [reflexivity|]. intros [|i] x Hx; discriminate.
  - destruct (all_some l) as [r'|]; [|discriminate]. injection H as <-.
    destruct (IH r' eq_refl) as [Hlen Hnth]. split; [simpl; now rewrite Hlen|].
    intros [|i] x Hx; simpl in *.
    + injection Hx as <-. now exists a.
    + now apply Hnth.
  - discriminate.
Qed.

(** What a returned workbook is made of. *)
Lemma export_parts (records : list dict) (filename_prefix : str)
    (book : workbook) :
  create_excel_download libs (inr records) filename_prefix = Some book ->
  exists widths,
    book = [Sheet (py "Extracted Content")
              (map (fun col => VStr (cut col)) (columns_of records)
               :: map (excel_row libs (make_frame records))
                      (map (fun r => map (dict_get r) (columns_of records))
                           records))
              widths] /\
    sheet_fits (make_frame records) = true /\
    forallb (forallb (accepted libs))
      (map (excel_row libs (make_frame records))
           (map (fun r => map (dict_get r) (columns_of records)) records))
      = true /\
    all_some (map (fun ic => column_width libs (make_frame records)
                               (fst ic) (snd ic))
                  (enumerate_from 0 (columns_of records))) = Some widths /\
    forallb (fun lw => column_letter (fst lw)) widths = true.
Proof.
  unfold create_excel_download, to_excel.
  change (columns (make_frame records)) with (columns_of records).
  change (entries (make_frame records))
    with (map (fun r => map (dict_get r) (columns_of records)) records).
  destruct (sheet_fits (make_frame records)) eqn:Hfit; [|discriminate].
  cbn [andb forallb].
  destruct (forallb (accepted libs)
              (map (fun col => VStr (cut col)) (columns_of records)));
    [|discriminate].
  cbn [andb].
  destruct (forallb (forallb (accepted libs)) _) eqn:Hacc; [|discriminate].
  destruct (all_some _) as [widths|] eqn:Hw; [|discriminate].
  destruct (forallb _ widths) eqn:Hl; [|discriminate].
  intros [= <-]. exists widths. repeat split; assumption.
Qed.

(** A returned workbook has at most 26 columns: the 27th would go
    under "[", which is no column letter. *)
Lemma export_columns_bound (records : list dict) (widths : list (str * nat)) :
  all_some (map (fun ic => column_width libs (make_frame records)
                             (fst ic) (snd ic))
                (enumerate_from 0 (columns_of records))) = Some widths ->
  forallb (fun lw => column_letter (fst lw)) widths = true ->
  (length (columns_of records) <= 26)%nat.
Proof.
  intros Hw Hl.
  destruct (Nat.le_gt_cases (length (columns_of records)) 26) as [H|H];
    [exact H|exfalso].
  destruct (nth_error (columns_of records) 26) as [col|] eqn:Hcol;
    [|apply nth_error_None in Hcol; lia].
  destruct (all_some_nth _ _ Hw) as [_ Hnth].
  destruct (Hnth 26%nat (column_width libs (make_frame records) 26 col))
    as (a & Ha & Hna).
  { rewrite nth_error_map.
    now rewrite (nth_error_enumerate_from _ 0 26 col Hcol). }
  rewrite forallb_forall in Hl.
  specialize (Hl a (nth_error_In _ _ Hna)).
  unfold column_width in Ha.
  destruct (all_some (astype_str libs _)); [|discriminate].
  injection Ha as <-. discriminate Hl.
Qed.


Lemma in_enumerate_from {A} (l : list A) (k i : nat) (a : A) :
  In (i, a) (enumerate_from k l) -> In a l.
Proof.
  revert k. induction l as [|x l IH]; intros k H; [destruct H|].
  destruct H as [[= _ ->]|H]; [now left | right; now apply (IH (S k))].
Qed.


End SheetFacts.



(** X18. In a workbook the export returns, the width of the i-th
    column stands under the letter [chr(65 + i)], a letter from "A" to
    "Z"; it never exceeds 50 and is at least the length of the column
    name plus 2, or 50 when that is more. *)
Theorem column_widths_are_capped (libs : libraries)
    (data : dict + list dict) (filename_prefix : str) (book : workbook)
    (i : nat) (col : str) :
  create_excel_download libs data filename_prefix = Some book ->
  nth_error (columns_of (records_of data)) i = Some col ->
  exists sheet width,
    book = [sheet] /\
    nth_error (column_widths sheet) i = Some ([N.of_nat (65 + i)], width) /\
    (width <= 50)%nat /\
    (Nat.min (length col + 2) 50 <= width)%nat /\
    (i < 26)%nat.
Proof.
  intros Hbook Hcol.
  assert (Hdata : create_excel_download libs data filename_prefix =
                  create_excel_download libs (inr (records_of data))
                    filename_prefix) by now destruct data.
  rewrite Hdata in Hbook. clear Hdata.
  destruct (export_parts libs _ _ _ Hbook)
    as (widths & -> & Hfit & Hacc & Hw & Hl).
  pose proof (export_columns_bound libs _ _ Hw Hl) as Hbound.
  destruct (all_some_nth _ _ Hw) as [_ Hnth].
  destruct (Hnth i (column_width libs (make_frame (records_of data)) i col))
    as (a & Ha & Hna).
  { rewrite nth_error_map.
    now rewrite (nth_error_enumerate_from _ 0 i col Hcol). }
  unfold column_width in Ha.
  destruct (all_some (astype_str libs _)) as [rendered|]; [|discriminate].
  set (longest := Nat.max (list_max (map (@length char) rendered))
                          (length col)) in Ha.
  assert (Hwidth : a = ([N.of_nat (65 + i)], Nat.min (longest + 2) 50))
    by congruence.
  clear Ha. subst a.
  exists (Sheet (py "Extracted Content")
            (map (fun c => VStr (cut c)) (columns_of (records_of data))
             :: map (excel_row libs (make_frame (records_of data)))
                    (map (fun r => map (dict_get r)
                                     (columns_of (records_of data)))
                         (records_of data)))
            widths), (Nat.min (longest + 2) 50).
  split; [reflexivity|]. cbn [column_widths].
  split; [exact Hna|].
  assert (Hlong : (length col <= longest)%nat) by apply Nat.le_max_r.
  split; [apply Nat.le_min_r|]. split; [lia|].
  assert (i < length (columns_of (records_of data)))%nat
    by (apply nth_error_Some; congruence).
  lia.
Qed.

Lemma column_widths_are_capped_witness :
  nth_error (columns_of (records_of (inl Samples.article_record))) 1 =
    Some (py "url") /\
  exists book sheet width,
    create_excel_download Samples.sample_libs
      (inl Samples.article_record) (py "Article") = Some book /\
    book = [sheet] /\
    nth_error (column_widths sheet) 1 = Some (py "B", width) /\
    (width <= 50)%nat.
Proof.
  split; [reflexivity|].
  destruct (create_excel_download Samples.sample_libs
              (inl Samples.article_record) (py "Article"))
    as [book|] eqn:Hbook; [|vm_compute in Hbook; discriminate].
  destruct (column_widths_are_capped Samples.sample_libs _ _ _ 1 (py "url")
              Hbook eq_refl) as (sheet & width & Hb & Hw & Hcap & _).
  exists book, sheet, width. split; [reflexivity|].
  split; [exact Hb|]. split; [exact Hw | exact Hcap].
Defined.

(** ** The name of the download *)

(** X19. The title part of the file name has at most 20 characters,
    holds no space, and holds nothing but alphanumeric characters,
    hyphens and underscores. *)
Theorem safe_title_is_safe (isalnum : char -> bool) (title : str) :
  (length (safe_title isalnum title) <= 20)%nat /\
  Forall (fun c => c <> 32%N /\
                   (isalnum c = true \/ c = 45%N \/ c = 95%N))
    (safe_title isalnum title).
Proof.
  unfold safe_title, replace_char.
  set (kept := filter _ (firstn 20 title)).
  assert (Hkept : Forall (fun c => isalnum c = true \/ c = 32%N \/
                                   c = 45%N \/ c = 95%N) kept).
  { apply Forall_forall. intros c Hc. apply filter_In in Hc.
    destruct Hc as [_ Hc]. apply orb_true_iff in Hc.
    destruct Hc as [Hc|Hc]; [now left|]. right. cbn [existsb] in Hc.
    rewrite !orb_true_iff, !N.eqb_eq in Hc. intuition discriminate. }
  split.
  - rewrite length_map.
    destruct (rstrip_prefix kept) as [q Hq].
    assert (length (rstrip kept) <= length kept)%nat
      by (rewrite Hq at 2; rewrite length_app; lia).
    assert (length kept <= length (firstn 20 title))%nat
      by apply filter_length_le.
    pose proof (length_firstn 20 title). unfold str, char in *. lia.
  - apply Forall_map. unfold rstrip.
    apply Forall_rev, lstrip_Forall, Forall_rev.
    eapply Forall_impl; [|exact Hkept].
    intros c Hc. cbv beta.
    destruct (N.eqb_spec c 32) as [->|Hne].
    + split; [discriminate|]. right. now right.
    + split; [exact Hne|].
      destruct Hc as [H|[H|H]]; [now left | contradiction | now right].
Qed.

(** ** The status *)

(** X20. The status of the record tells the outcome: it is "success"
    exactly when neither the request, nor the status check, nor the
    parser raised; any other status is "failed: " followed by the
    description of the error that was raised, and is never "success",
    whatever the message. *)
Theorem status_tells_outcome (server : list str -> str -> get_outcome)
    (clock : nat -> str) (url : str) (w : world) :
  exists rec w' status,
    extract_article server clock url w = (Ret rec, w') /\
    dict_get rec (py "status") = Some (VStr status) /\
    (status = py "success" <-> fetch_error server w url = None) /\
    (status <> py "success" <->
     exists e, fetch_error server w url = Some e /\
               status = py "failed: " ++ exn_str e) /\
    (forall r e,
       server (requested w) url = GetReturns r ->
       status_error r = None ->
       content r = ParserRaises e ->
       status = py "failed: " ++ exn_str e).
Proof.
  destruct (fetch_error_or_page server url w) as [[e He]|[page Hp]].
  - rewrite (extract_article_failed server clock _ _ _ He).
    do 3 eexists. split; [reflexivity|]. split; [reflexivity|].
    rewrite He. split; [|split]; [split; discriminate | split |].
    + intros _. now exists e.
    + discriminate.
    + intros r e' Hr Hst Hc. unfold fetch_error in He.
      rewrite Hr, Hst, Hc in He. now injection He as ->.
  - rewrite (extract_article_fetched server clock _ _ _ Hp).
    pose proof (fetched_page_no_error server _ _ _ Hp) as Hnone.
    do 3 eexists. split; [reflexivity|]. split; [reflexivity|].
    rewrite Hnone. split; [|split]; [split; reflexivity | split |].
    + intros H. now elim H.
    + intros (e & He & _). discriminate.
    + intros r e Hr Hst Hc. unfold fetch_error in Hnone.
      rewrite Hr, Hst, Hc in Hnone. discriminate.
Qed.
